(** * erddap-deploy: the command-line front end and its Registry Engine

    The repository's source is [erddap_deploy/__main__.py]: a click group
    [main] with the subcommands [save], [sync] and [test].  The class
    [Erddap] it imports (the Registry Engine: loader, model, diff, secret
    merger, serializer) lives in [erddap_deploy/erddap.py], which is not part
    of the sources at hand; module [Engine] below models it from the
    specification.  Module [Cli] embeds [__main__.py] statement by statement
    in a state-and-exception monad over an explicit world (file system,
    process environment, heap of [Erddap] objects, trace of collaborator
    calls). *)

From Stdlib Require Import ZArith.
From stdpp Require Import base option list gmap sets strings sorting.

Set Default Proof Using "Type".

(* ===================================================================== *)
(** ** Ordered mappings (Python dicts, ordered attribute bags)            *)
(* ===================================================================== *)

Module Assoc.
Section assoc.
Context {V : Type}.

(** First binding of [k], as a dict lookup. *)
Fixpoint get (k : string) (l : list (string * V)) : option V :=
  match l with
  | [] => None
  | (k', v) :: r => if decide (k = k') then Some v else get k r
  end.

(** [d[k] = v]: replace the value in place when [k] is bound, else append
    at the end (insertion order is kept). *)
Fixpoint set (k : string) (v : V) (l : list (string * V)) : list (string * V) :=
  match l with
  | [] => [(k, v)]
  | (k', v') :: r =>
      if decide (k = k') then (k', v) :: r else (k', v') :: set k v r
  end.

(** [d.update(new)]: key by key, the later value wins. *)
Definition update (old new : list (string * V)) : list (string * V) :=
  foldl (λ acc kv, set kv.1 kv.2 acc) old new.

Definition keys (l : list (string * V)) : list string := l.*1.
End assoc.
End Assoc.

(* ===================================================================== *)
(** ** The Registry Engine                                                *)
(* ===================================================================== *)

(** [erddap_deploy/erddap.py], which defines the class [Erddap] imported at
    line 10 of [__main__.py], is absent from the sources.  Everything in
    this module is modelled from the specification; each definition says
    which sentences it follows. *)

Module Engine.

(** Modelled from the spec: the attribute values of [erddap.py].  Section
    9: "a tagged union over {scalar string, numeric, nested block, ordered
    list of blocks}". *)
#[local] Unset Elimination Schemes.
Inductive Value : Type :=
  | VScalar (s : string)
  | VNumeric (z : Z)
  | VBlock (fields : list (string * Value))
  | VBlocks (items : list (list (string * Value))).
#[local] Set Elimination Schemes.

Abbreviation Attrs := (list (string * Value)).

(** Modelled from the spec: the Dataset of [erddap.py].  Section 3: "a
    unique identifier (string key), an ordered mapping of configuration
    attributes ..., and a type discriminator". *)
Record Dataset : Type := mkDataset {
  dataset_id : string;
  dataset_type : string;
  attributes : Attrs
}.

(** Modelled from the spec: the provenance of a Registry, "single file vs.
    fragment set" (section 3), which is also the two shapes of the Loader's
    input (section 4.1). *)
Inductive Source : Type :=
  | SingleFile (path : string)
  | FragmentSet (pattern : string) (recursive : bool).

(** Modelled from the spec: the Registry of [erddap.py].  Section 3: "an
    ordered sequence of Dataset entries ...; a mapping of top-level server
    settings ...; provenance of where it was loaded from". *)
Record Registry : Type := mkRegistry {
  datasets : list Dataset;
  settings : Attrs;
  provenance : Source
}.

(** Modelled from the spec: the dataset identifiers of a Registry, in its
    order (read access to the ordered Dataset sequence, section 4.2). *)
Definition ids (R : Registry) : list string := dataset_id <$> datasets R.

(** Modelled from the spec: the dataset of a Registry with a given
    identifier (section 3: the identifier is the dataset's key). *)
Definition find_dataset (i : string) (ds : list Dataset) : option Dataset :=
  list_find (λ d, dataset_id d = i) ds ≫= λ p, Some p.2.

(** Modelled from the spec: the invariants of a Registry.  Section 3:
    "dataset identifiers are unique within a Registry"; attributes and
    settings are mappings (one binding per key). *)
Record wf_registry (R : Registry) : Prop := {
  wf_ids : NoDup (ids R);
  wf_attributes : Forall (λ d, NoDup (Assoc.keys (attributes d))) (datasets R);
  wf_settings : NoDup (Assoc.keys (settings R))
}.

(** *** Documents *)

(** Modelled from the spec: one dataset block of a structured document. *)
Record Block : Type := mkBlock {
  block_id : string;
  block_type : string;
  block_entries : Attrs
}.

(** Modelled from the spec: the "normalized document tree" of section 2,
    dataset blocks and top-level settings.  The specification fixes no
    grammar for the bytes of a document, so the bytes, their printing and
    their parsing are not modelled: a document stands here for its tree,
    and nothing below says that parsing inverts printing. *)
Record Document : Type := mkDocument {
  doc_settings : Attrs;
  doc_blocks : list Block
}.

(** Modelled from the spec: what the Loader finds in a file, the tree of a
    structured document (what parsing its bytes gives) or bytes with
    "malformed document syntax" (section 4.1). *)
Inductive FileContent : Type :=
  | Structured (doc : Document)
  | RawText (raw : string).

(** *** Serializer *)

(** Modelled from the spec: the block rendered for one dataset, with its
    attributes in insertion order and its nested values as they are
    (section 4.5). *)
Definition block_of_dataset (d : Dataset) : Block :=
  {| block_id := dataset_id d;
     block_type := dataset_type d;
     block_entries := attributes d |}.

(** Modelled from the spec: [render] of [erddap.py], up to the tree of the
    document it prints.  Section 4.5: "Must preserve: dataset order exactly
    as stored in the Registry; attribute insertion order within each
    dataset; nested block structure (no flattening)". *)
Definition render (R : Registry) : Document :=
  {| doc_settings := settings R;
     doc_blocks := block_of_dataset <$> datasets R |}.

(** *** Loader *)

(** Modelled from the spec: the faults of section 7, "malformed input
    document, unreadable file, or duplicate dataset identifier within the
    same load". *)
Inductive Fault : Type :=
  | Unreadable
  | MalformedSyntax
  | DuplicateIdentifier (i : string).

(** Modelled from the spec: LoadError of section 7, "surfaced to the caller
    with the offending path/identifier". *)
Record LoadError : Type := mkLoadError {
  offending_file : string;
  fault : Fault
}.

(** Modelled from the spec: the two non-fatal reports of section 7. *)
Inductive Warning : Type :=
  | EmptySourceWarning (pattern : string)
  | UnmatchedSecretWarning (key : string).

(** Modelled from the spec: the two policies for a dataset identifier met a
    second time.  Section 9 leaves open "whether it is a hard error or a
    last-wins override". *)
Inductive DupPolicy : Type := DupIsError | DupLastWins.

(** Modelled from the spec: what the Loader takes as given, the matching
    relation of the glob library (pattern, recursive flag, path) and the
    policy chosen for duplicates. *)
Class LoaderEnv : Type := {
  glob_match : string → bool → string → bool;
  dup_policy : DupPolicy
}.

(** Modelled from the spec: the Dataset created from a block, "one Dataset
    per matched configuration block" (section 3); its attributes are the
    block's entries read into a mapping. *)
Definition dataset_of_block (b : Block) : Dataset :=
  {| dataset_id := block_id b;
     dataset_type := block_type b;
     attributes := Assoc.update [] (block_entries b) |}.

(** Modelled from the spec: a dataset seen again.  Section 4.1:
    "attributes of a dataset seen again are merged key-by-key with the later
    fragment's value winning per key". *)
Definition override (b : Block) (d : Dataset) : Dataset :=
  {| dataset_id := dataset_id d;
     dataset_type := block_type b;
     attributes := Assoc.update (attributes d) (block_entries b) |}.

(** Modelled from the spec: the override applied in place, so that the
    dataset keeps its first-seen position (section 4.1). *)
Fixpoint override_in (b : Block) (ds : list Dataset) : list Dataset :=
  match ds with
  | [] => []
  | d :: r =>
      if decide (dataset_id d = block_id b) then override b d :: r
      else d :: override_in b r
  end.

Section loader.
Context `{!LoaderEnv}.

(** Modelled from the spec: the fold step of the Loader.  Section 4.1:
    "unseen identifiers are inserted preserving first-seen order;
    attributes of a dataset seen again are merged key-by-key"; section 3
    and 7: a duplicate identifier is a load-time error (the other
    policy). *)
Definition fold_block (acc : list Dataset) (b : Block)
  : Fault + list Dataset :=
  if bool_decide (block_id b ∈ dataset_id <$> acc) then
    match dup_policy with
    | DupIsError => inl (DuplicateIdentifier (block_id b))
    | DupLastWins => inr (override_in b acc)
    end
  else inr (acc ++ [dataset_of_block b]).

(** Modelled from the spec: the blocks of one document folded in, in
    document order; the first fault ends the load (section 4.1). *)
Fixpoint fold_blocks (acc : list Dataset) (bs : list Block)
  : Fault + list Dataset :=
  match bs with
  | [] => inr acc
  | b :: r =>
      match fold_block acc b with
      | inl e => inl e
      | inr acc' => fold_blocks acc' r
      end
  end.

(** Modelled from the spec: one document folded into the accumulating
    Registry, "its dataset blocks and top-level settings" (section 4.1). *)
Definition fold_document (acc : list Dataset * Attrs) (doc : Document)
  : Fault + (list Dataset * Attrs) :=
  match fold_blocks acc.1 (doc_blocks doc) with
  | inl e => inl e
  | inr ds => inr (ds, Assoc.update acc.2 (doc_settings doc))
  end.

(** Modelled from the spec: one candidate parsed and folded in.  Section
    4.1: "malformed document syntax is a fatal load error naming the
    offending file". *)
Definition fold_file (read : string → option FileContent)
    (acc : list Dataset * Attrs) (path : string)
  : LoadError + (list Dataset * Attrs) :=
  match read path with
  | None => inl (mkLoadError path Unreadable)
  | Some (RawText _) => inl (mkLoadError path MalformedSyntax)
  | Some (Structured doc) =>
      match fold_document acc doc with
      | inl e => inl (mkLoadError path e)
      | inr acc' => inr acc'
      end
  end.

(** Modelled from the spec: the candidates folded in, in the order given
    (section 4.1). *)
Fixpoint fold_files (read : string → option FileContent)
    (acc : list Dataset * Attrs) (paths : list string)
  : LoadError + (list Dataset * Attrs) :=
  match paths with
  | [] => inr acc
  | p :: r =>
      match fold_file read acc p with
      | inl e => inl e
      | inr acc' => fold_files read acc' r
      end
  end.

(** Modelled from the spec: glob resolution.  Section 4.1: "the glob must
    resolve to a deterministic, sorted list of candidate files before
    merging"; section 2: "lexicographic path order".  [listing] is the
    directory enumeration, in whatever order the file system gives it. *)
Definition candidates (listing : list string) (src : Source) : list string :=
  match src with
  | SingleFile p => [p]
  | FragmentSet pat rec =>
      merge_sort String.le (filter (λ p, glob_match pat rec p = true) listing)
  end.

(** Modelled from the spec: "an empty fragment set (no files match the
    glob) is reported" (section 4.1). *)
Definition load_warnings (src : Source) (cands : list string) : list Warning :=
  match src, cands with
  | FragmentSet pat _, [] => [EmptySourceWarning pat]
  | _, _ => []
  end.

(** Modelled from the spec: [load] of [erddap.py] (section 4.1).  An empty
    fragment set "is reported but is not automatically fatal". *)
Definition load (read : string → option FileContent) (listing : list string)
    (src : Source) : LoadError + (Registry * list Warning) :=
  let cands := candidates listing src in
  match fold_files read ([], []) cands with
  | inl e => inl e
  | inr (ds, st) => inr (mkRegistry ds st src, load_warnings src cands)
  end.

(** Modelled from the spec: load followed by render, the "rendered output"
    of one run over a source (section 8, merge order determinism). *)
Definition load_and_render (read : string → option FileContent)
    (listing : list string) (src : Source) : LoadError + Document :=
  match load read listing src with
  | inl e => inl e
  | inr (R, _) => inr (render R)
  end.
End loader.

(** *** Diff Engine *)

(** Modelled from the spec: value comparison.  Section 4.3: "structural
    (deep equality of nested configuration blocks), not reference
    equality". *)
Fixpoint Value_eqb (a b : Value) {struct a} : bool :=
  let fields_eqb :=
    fix fields_eqb (f g : Attrs) {struct f} : bool :=
      match f, g with
      | [], [] => true
      | (k, v) :: f', (k', v') :: g' =>
          bool_decide (k = k') && Value_eqb v v' && fields_eqb f' g'
      | _, _ => false
      end in
  match a, b with
  | VScalar s, VScalar t => bool_decide (s = t)
  | VNumeric x, VNumeric y => bool_decide (x = y)
  | VBlock f, VBlock g => fields_eqb f g
  | VBlocks xs, VBlocks ys =>
      (fix items_eqb (xs ys : list Attrs) {struct xs} : bool :=
         match xs, ys with
         | [], [] => true
         | f :: xs', g :: ys' => fields_eqb f g && items_eqb xs' ys'
         | _, _ => false
         end) xs ys
  | _, _ => false
  end.

(** The induction principle of [Value], with the nested lists unfolded. *)
Section Value_ind.
Variable P : Value → Prop.
Hypothesis Hscalar : ∀ s, P (VScalar s).
Hypothesis Hnumeric : ∀ z, P (VNumeric z).
Hypothesis Hblock : ∀ f, Forall (λ kv, P kv.2) f → P (VBlock f).
Hypothesis Hblocks :
    ∀ xs, Forall (Forall (λ kv, P kv.2)) xs → P (VBlocks xs).

Fixpoint Value_ind (v : Value) : P v :=
    let fields :=
      fix fields (f : Attrs) : Forall (λ kv, P kv.2) f :=
        match f with
        | [] => @List.Forall_nil _ _
        | kv :: f' =>
            @List.Forall_cons _ (λ kv, P kv.2) kv f'
              (Value_ind kv.2) (fields f')
        end in
    match v with
    | VScalar s => Hscalar s
    | VNumeric z => Hnumeric z
    | VBlock f => Hblock f (fields f)
    | VBlocks xs =>
        Hblocks xs
          ((fix items (xs : list Attrs) : Forall (Forall (λ kv, P kv.2)) xs :=
              match xs with
              | [] => @List.Forall_nil _ _
              | f :: xs' =>
                  @List.Forall_cons _ (Forall (λ kv, P kv.2)) f xs'
                    (fields f) (items xs')
              end) xs)
    end.
End Value_ind.

(** Modelled from the spec: on which side of a comparison a dataset is
    present (section 3, RegistryDiff). *)
Inductive Presence : Type := OnlyBefore | OnlyAfter | InBoth.

(** Modelled from the spec: the DatasetDiff of [erddap.py].  Section 3:
    "added attributes, removed attributes, changed attributes (old value,
    new value), and an overall changed boolean"; [presence] is the mark
    "fully added" / "fully removed" of a RegistryDiff entry. *)
Record DatasetDiff : Type := mkDatasetDiff {
  presence : Presence;
  added : Attrs;
  removed : Attrs;
  changed_attrs : list (string * (Value * Value));
  changed : bool
}.

(** Modelled from the spec: the RegistryDiff of section 3, "a mapping from
    dataset identifier to DatasetDiff", kept in a fixed order. *)
Abbreviation RegistryDiff := (list (string * DatasetDiff)).

(** Modelled from the spec: "identifiers present only in the before
    snapshot are reported as fully removed" (section 3). *)
Definition fully_removed (d : Dataset) : DatasetDiff :=
  mkDatasetDiff OnlyBefore [] (attributes d) [] true.

(** Modelled from the spec: "identifiers present only in after are reported
    as fully added" (section 3). *)
Definition fully_added (d : Dataset) : DatasetDiff :=
  mkDatasetDiff OnlyAfter (attributes d) [] [] true.

(** Modelled from the spec: "key-wise value inequality" (section 4.3): for
    each key of [before] also bound in [after], the two values bound to it,
    when they differ. *)
Definition value_changes (before after : Attrs)
  : list (string * (Value * Value)) :=
  omap (λ k, match Assoc.get k before, Assoc.get k after with
             | Some v, Some v' =>
                 if Value_eqb v v' then None else Some (k, (v, v'))
             | _, _ => None
             end) (Assoc.keys before).

(** Modelled from the spec: a dataset present on both sides.  Section 4.3:
    "compute the symmetric attribute-key difference plus key-wise value
    inequality to build added/removed/changed attribute sets, and set the
    overall changed flag to true if any of the three sets is non-empty". *)
Definition compare_datasets (b a : Dataset) : DatasetDiff :=
  let keys_b := Assoc.keys (attributes b) in
  let keys_a := Assoc.keys (attributes a) in
  let add := filter (λ kv, kv.1 ∉ keys_b) (attributes a) in
  let rem := filter (λ kv, kv.1 ∉ keys_a) (attributes b) in
  let chg := value_changes (attributes b) (attributes a) in
  mkDatasetDiff InBoth add rem chg
    (negb (bool_decide (add = [])) || negb (bool_decide (rem = []))
     || negb (bool_decide (chg.*1 = []))).

(** Modelled from the spec: the entry of one identifier (section 4.3). *)
Definition diff_entry (before after : Registry) (i : string)
  : option (string * DatasetDiff) :=
  match find_dataset i (datasets before), find_dataset i (datasets after) with
  | Some b, Some a => Some (i, compare_datasets b a)
  | Some b, None => Some (i, fully_removed b)
  | None, Some a => Some (i, fully_added a)
  | None, None => None
  end.

(** Modelled from the spec: [diff(before, after)] of [erddap.py].  Section
    4.3: "compute the set union of dataset identifiers from both snapshots;
    for each identifier, if present only in one side, emit a DatasetDiff
    marking total addition or removal; if present in both, ..." *)
Definition diff (before after : Registry) : RegistryDiff :=
  omap (diff_entry before after) (remove_dups (ids before ++ ids after)).

(** *** Secret Merger *)

(** Modelled from the spec: the fixed prefix of secret keys, as in scenario
    4 of section 8. *)
Definition SECRET_PREFIX : string := "ERDDAP_SECRET_".

(** Modelled from the spec: section 4.4, "secret keys follow the fixed
    naming convention <PREFIX><DATASET_ID>_<ATTRIBUTE_NAME>". *)
Definition secret_key (i attr : string) : string :=
  SECRET_PREFIX +:+ i +:+ "_" +:+ attr.

(** Modelled from the spec: the overlay on one dataset; an attribute whose
    secret key is bound takes the secret as its value (section 4.4). *)
Definition overlay_dataset (secrets : gmap string string) (d : Dataset)
  : Dataset :=
  {| dataset_id := dataset_id d;
     dataset_type := dataset_type d;
     attributes :=
       (λ kv, match secrets !! secret_key (dataset_id d) kv.1 with
              | Some s => (kv.1, VScalar s)
              | None => kv
              end) <$> attributes d |}.

(** Modelled from the spec: the secret keys that "match [a] known
    dataset/attribute" (section 4.4). *)
Definition known_secret_keys (R : Registry) : list string :=
  d ← datasets R; secret_key (dataset_id d) <$> Assoc.keys (attributes d).

(** Modelled from the spec: [merge_secrets] of [erddap.py].  Section 4.4:
    "overlay matching values onto the corresponding Dataset attribute in a
    copy of the Registry intended purely for serialization"; "a secret key
    that does not match any known dataset/attribute is ignored but should be
    reported".  The result is a new Registry; the argument is not touched. *)
Definition merge_secrets (R : Registry) (secrets : gmap string string)
  : Registry * list Warning :=
  ({| datasets := overlay_dataset secrets <$> datasets R;
      settings := settings R;
      provenance := provenance R |},
   UnmatchedSecretWarning <$>
     filter (λ k, k ∉ known_secret_keys R) (elements (dom secrets))).

End Engine.

(* ===================================================================== *)
(** ** The command-line front end, [erddap_deploy/__main__.py]            *)
(* ===================================================================== *)

Module Cli.
Import Engine.

(** *** The world the commands run in *)

(** The file system: files with their contents, and directories. *)
Record FileSystem : Type := mkFileSystem {
  files : gmap string FileContent;
  dirs : gset string
}.

(** References to [Erddap] objects: Python passes objects by reference, and
    [sync] reloads the live object in place while holding a copy of it. *)
Abbreviation loc := nat.

(** Python exceptions the commands can meet. *)
Inductive PyExn : Type :=
  | LoadFailed (e : LoadError)
  | AttributeError (attr : string)
  | TypeError (msg : string)
  | ValueError (msg : string)
  | SystemExit (code : Z)
  | LibraryError (origin msg : string).

(** The levels of the [loguru] calls in the file. *)
Inductive Level : Type := DEBUG | INFO | ERROR.

(** What a log call is handed besides its message: a string, a string or
    [None], the keys of a dict or a list of strings, a DatasetDiff. *)
Inductive LogArg : Type :=
  | AStr (s : string)
  | AOpt (o : option string)
  | AKeys (ks : list string)
  | ADiff (d : DatasetDiff).

(** The calls a command makes on its collaborators, in program order. *)
Inductive Event : Type :=
  | EvLoggerSetup (log_level : string)
  | EvLog (level : Level) (message : string) (args : list LogArg)
  | EvErddap (src : Source)
  | EvCopy (self new : loc)
  | EvLoad (self : loc)
  | EvDiff (self other : loc)
  | EvToXml (self : loc) (output : string) (secrets : gmap string string)
  | EvWarning (w : Warning)
  | EvClone (repo : option string) (to_path : string)
  | EvRepo (path : string)
  | EvCheckout (branch : option string)
  | EvPull
  | EvWriteText (path content : string)
  | EvPytest (args : list string).

(** The state a command runs in: the file system, [os.environ], the
    [Erddap] objects alive, and the calls made so far. *)
Record World : Type := mkWorld {
  fs : FileSystem;
  environ : gmap string string;
  heap : list Registry;
  trace : list Event
}.

(** [ctx.obj] as [main] fills it (lines 72-80). *)
Record CtxObj : Type := mkCtxObj {
  erddap : option loc;
  datasets_xml : string;
  datasets_d : string;
  recursive : bool;
  bigParentDirectory : string
}.

(** What [__main__.py] takes from libraries outside the repository, and from
    the part of [erddap.py] the specification does not fix: [str.format],
    GitPython's [Repo], [pytest.main], and the truth value of a per-dataset
    entry of [Erddap.diff]'s result.  [pytest.main] runs the test suite in
    the process: it is handed the world and gives back what it returned (an
    [ExitCode] member, or a plain integer) with the world it left, or
    raises. *)
Class Host : Type := {
  str_format : string → CtxObj → PyExn + string;
  repo_clone_from :
    option string → string → FileSystem → PyExn + FileSystem;
  repo_open : string → FileSystem → PyExn + unit;
  git_checkout : string → option string → FileSystem → PyExn + FileSystem;
  git_pull : string → FileSystem → PyExn + FileSystem;
  pytest_main : list string → World → PyExn + (Z * World);
  truthy : DatasetDiff → bool
}.

(** *** The monad: state passing over [World], with exceptions *)

(** How a call ends: with a value, or with an exception. *)
Inductive Outcome (A : Type) : Type :=
  | Returns (a : A)
  | Raises (e : PyExn).
Arguments Returns {A} a.
Arguments Raises {A} e.

(** A computation: from the world before to its outcome and the world
    after. *)
Definition M (A : Type) : Type := World → Outcome A * World.

Definition ret {A} (a : A) : M A := λ w, (Returns a, w).

Definition bind {A B} (m : M A) (k : A → M B) : M B :=
  λ w, match m w with
       | (Returns a, w') => k a w'
       | (Raises e, w') => (Raises e, w')
       end.

Definition raise {A} (e : PyExn) : M A := λ w, (Raises e, w).

#[export] Instance M_ret : MRet M := @ret.
#[export] Instance M_bind : MBind M := λ A B k m, bind m k.

(** A library call that returns or raises. *)
Definition lift {A} (r : PyExn + A) : M A :=
  match r with
  | inl e => raise e
  | inr a => ret a
  end.

Definition get_world : M World := λ w, (Returns w, w).

Definition emit (ev : Event) : M unit :=
  λ w, (Returns tt, mkWorld (fs w) (environ w) (heap w) (trace w ++ [ev])).

Definition emit_all (evs : list Event) : M unit :=
  λ w, (Returns tt, mkWorld (fs w) (environ w) (heap w) (trace w ++ evs)).

Definition set_fs (f : FileSystem) : M unit :=
  λ w, (Returns tt, mkWorld f (environ w) (heap w) (trace w)).

Definition set_heap (h : list Registry) : M unit :=
  λ w, (Returns tt, mkWorld (fs w) (environ w) h (trace w)).

(** [if b: m]. *)
Definition when (b : bool) (m : M unit) : M unit := if b then m else ret tt.

(** [for x in l: body]. *)
Fixpoint for_each {A} (l : list A) (body : A → M unit) : M unit :=
  match l with
  | [] => ret tt
  | x :: r => body x ;; for_each r body
  end.

(** What [pytest.main] left: files, environment and objects; the record of
    the calls made is the command's own. *)
Definition set_state (wp : World) : M unit :=
  λ w, (Returns tt, mkWorld (fs wp) (environ wp) (heap wp) (trace w)).

(** The levels [loguru] knows when nothing has added one. *)
Definition loguru_levels : list string :=
  ["TRACE"; "DEBUG"; "INFO"; "SUCCESS"; "WARNING"; "ERROR"; "CRITICAL"].

(** Lines 53-57: [logger.remove()], then [logger.add(sys.stderr,
    level=log_level)], which raises [ValueError] for the name of a level
    that does not exist. *)
Definition logger_add (log_level : string) : M unit :=
  emit (EvLoggerSetup log_level);;
  if bool_decide (log_level ∈ loguru_levels) then ret tt
  else raise (ValueError ("Level '" +:+ log_level +:+ "' does not exist")).

(** [.value] on what [pytest.main] returned.  [pytest.main] returns the
    [ExitCode] member of the session's status when there is one (0 to 5),
    whose [.value] is that integer, and the plain integer otherwise, which
    has no such attribute. *)
Definition exit_code_value (returned : Z) : M Z :=
  if bool_decide (0 ≤ returned ≤ 5)%Z then ret returned
  else raise (AttributeError "value").

(** [logger.debug], [logger.info], [logger.error]: the call is recorded. *)
Definition logger (level : Level) (message : string) (args : list LogArg)
  : M unit :=
  emit (EvLog level message args).

(** *** pathlib *)

(** Every path the file system knows, file or directory. *)
Definition all_paths (f : FileSystem) : list string :=
  elements (dom (files f) ∪ dirs f).

(** [Path(p).exists()]. *)
Definition path_exists (f : FileSystem) (p : string) : bool :=
  bool_decide (p ∈ dom (files f) ∪ dirs f).

(** [list(Path(p).glob("**/*"))]: every file and directory below [p]. *)
Definition glob_below (f : FileSystem) (p : string) : list string :=
  filter (λ q, String.prefix (p +:+ "/") q = true) (all_paths f).

(** [Path.write_text]. *)
Definition write_text (p content : string) : M unit :=
  w ← get_world;
  set_fs (mkFileSystem (<[p := RawText content]> (files (fs w)))
                       (dirs (fs w)));;
  emit (EvWriteText p content).

(** [hard_flag_dir / datasetID] at line 158: [hard_flag_dir] is the [str]
    returned by [str.format] at line 127 and [datasetID] a [str] key, and
    [str] has no [/] operator. *)
Definition str_truediv (a b : string) : PyExn + string :=
  inl (TypeError "unsupported operand type(s) for /: 'str' and 'str'").

(** *** Reading a trace *)

(** The sources [Erddap(...)] was constructed from, in order. *)
Definition erddap_calls (t : list Event) : list Source :=
  omap (λ ev, match ev with EvErddap src => Some src | _ => None end) t.

(** The [to_xml] calls, in order, with their arguments. *)
Definition to_xml_calls (t : list Event)
  : list (loc * string * gmap string string) :=
  omap (λ ev, match ev with
              | EvToXml self out s => Some (self, out, s)
              | _ => None
              end) t.

(** The paths [write_text] was called on, in order. *)
Definition written_paths (t : list Event) : list string :=
  omap (λ ev, match ev with EvWriteText p _ => Some p | _ => None end) t.

(** What [main] has recorded when it is about to construct an [Erddap]. *)
Definition main_prologue (log_level message arg : string) : list Event :=
  [EvLoggerSetup log_level; EvLog DEBUG "Load erddap dataset" [];
   EvLog INFO message [AStr arg]].

(** The same world, with more calls recorded. *)
Definition record (evs : list Event) (w : World) : World :=
  mkWorld (fs w) (environ w) (heap w) (trace w ++ evs).

(** *** The methods of [Erddap] *)

Section methods.
Context `{!LoaderEnv}.

(** Reading a file by its path. *)
Definition read_file (f : FileSystem) (p : string) : option FileContent :=
  files f !! p.

(** The files of the file system, as it enumerates them. *)
Definition listing (f : FileSystem) : list string :=
  elements (dom (files f)).

(** The Loader run on a file system: it reads files, and nothing else. *)
Definition load_from (f : FileSystem) (src : Source)
  : LoadError + (Registry * list Warning) :=
  load (read_file f) (listing f) src.

(** A method call on [ctx.obj["erddap"]]: [None] has no attributes. *)
Definition receiver (o : option loc) (attr : string) : M loc :=
  match o with
  | Some l => ret l
  | None => raise (AttributeError attr)
  end.

(** The object a reference points to. *)
Definition deref (l : loc) : M Registry :=
  w ← get_world;
  match heap w !! l with
  | Some R => ret R
  | None => raise (LibraryError "python" "dangling reference")
  end.

(** Modelled from the spec: the constructor of [Erddap] (absent from the
    sources), which runs the Loader on its source and holds the result
    (sections 4.1 and 4.2).  A LoadError is raised to the caller (section
    7).  The two calls of [__main__.py], [Erddap(datasets_d,
    recursive=recursive)] and [Erddap(datasets_xml)], are the two shapes of
    the Loader's input: a glob with its recursive flag, a single path. *)
Definition Erddap (src : Source) : M loc :=
  emit (EvErddap src);;
  w ← get_world;
  match load_from (fs w) src with
  | inl e => raise (LoadFailed e)
  | inr (R, warns) =>
      emit_all (EvWarning <$> warns);;
      set_heap (heap w ++ [R]);;
      ret (length (heap w))
  end.

(** Modelled from the spec: [Erddap.copy] (absent from the sources).
    Section 4.2: "a deep-copy operation producing a fully independent
    Registry snapshot (no shared mutable state with the original)". *)
Definition copy (self : loc) : M loc :=
  R ← deref self;
  w ← get_world;
  emit (EvCopy self (length (heap w)));;
  set_heap (heap w ++ [R]);;
  ret (length (heap w)).

(** Modelled from the spec: [Erddap.load] (absent from the sources), under
    the name [reload] since [load] is the Loader.  Section 4.2: "an in-place
    reload operation that re-runs the Loader against the same source and
    replaces its own contents". *)
Definition reload (self : loc) : M unit :=
  R ← deref self;
  emit (EvLoad self);;
  w ← get_world;
  match load_from (fs w) (provenance R) with
  | inl e => raise (LoadFailed e)
  | inr (R', warns) =>
      emit_all (EvWarning <$> warns);;
      set_heap (<[self := R']> (heap w))
  end.

(** Modelled from the spec: [Erddap.diff] (absent from the sources), under
    the name [diff_with] since [diff] is the Diff Engine: that engine
    (section 4.3) with the receiver as the "after" snapshot and the argument
    as the "before" one.  It reads both and writes neither. *)
Definition diff_with (self other : loc) : M RegistryDiff :=
  after ← deref self;
  before ← deref other;
  emit (EvDiff self other);;
  ret (diff before after).

(** Modelled from the spec: [Erddap.to_xml] (absent from the sources):
    Secret Merger, then Serializer, then the output document "written to a
    caller-specified path" (sections 4.4, 4.5 and 6).  The secrets are
    overlaid on a copy; the object at [self] is only read. *)
Definition to_xml (self : loc) (output : string) (secrets : gmap string string)
  : M unit :=
  R ← deref self;
  emit (EvToXml self output secrets);;
  let '(R', warns) := merge_secrets R secrets in
  emit_all (EvWarning <$> warns);;
  w ← get_world;
  set_fs (mkFileSystem (<[output := Structured (render R')]> (files (fs w)))
                       (dirs (fs w))).
End methods.

(** *** The commands *)

Section commands.
Context `{!LoaderEnv, !Host}.

(** [bool(s)] of a [str]. *)
Definition str_truth (s : string) : bool := negb (bool_decide (s = "")).

(** Lines 45-80: the group callback. *)
Definition main (datasets_xml datasets_d : string) (recursive : bool)
    (big_parent_directory log_level : string) : M CtxObj :=
  logger_add log_level;;
  logger DEBUG "Load erddap dataset" [];;
  erddap ←
    (if str_truth datasets_d then
       logger INFO "Load datasets_d={}" [AStr datasets_d];;
       l ← Erddap (FragmentSet datasets_d recursive);
       ret (Some l)
     else
       w ← get_world;
       if path_exists (fs w) datasets_xml then
         logger INFO "Load datasets_xml={}" [AStr datasets_xml];;
         l ← Erddap (SingleFile datasets_xml);
         ret (Some l)
       else
         logger ERROR "No datasets.xml found" [];;
         ret None);
  logger INFO "Load datasets_xml={datasets_xml}" [];;
  ret {| erddap := erddap;
         datasets_xml := datasets_xml;
         datasets_d := datasets_d;
         recursive := recursive;
         bigParentDirectory := big_parent_directory |}.

(** Lines 89-93: the secrets mapping, read from [os.environ]. *)
Definition environ_secrets (env : gmap string string) : gmap string string :=
  filter (λ kv, String.prefix "ERDDAP_SECRET_" kv.1 = true) env.

(** Lines 86-96. *)
Definition save (ctx : CtxObj) (output : string) : M unit :=
  logger INFO "Convert to xml" [];;
  w ← get_world;
  let secrets := environ_secrets (environ w) in
  logger INFO " Include secrets={}" [AKeys (elements (dom secrets))];;
  output ← lift (str_format output ctx);
  self ← receiver (erddap ctx) "to_xml";
  to_xml self output secrets.

(** [any(diff.values())]. *)
Definition any_values (d : RegistryDiff) : bool := existsb truthy d.*2.

(** Lines 129-135 of [sync]: clone the repository when the local path is
    missing or empty, open it otherwise. *)
Definition open_repo (repo : option string) (local_repo_path : string)
  : M unit :=
  w ← get_world;
  if negb (path_exists (fs w) local_repo_path)
     || bool_decide (glob_below (fs w) local_repo_path = [])
  then
    logger INFO "Clone repo {repo} to {local_repo_path}"
           [AOpt repo; AStr local_repo_path];;
    emit (EvClone repo local_repo_path);;
    f ← lift (repo_clone_from repo local_repo_path (fs w));
    set_fs f
  else
    emit (EvRepo local_repo_path);;
    lift (repo_open local_repo_path (fs w)).

(** Lines 127-147 of [sync]: bring the repository to the branch, snapshot
    the live registry, pull, reload, compare.  The result is what the rest
    of the body uses: the formatted [hard_flag_dir], the live object and
    [diff]. *)
Definition sync_compare (ctx : CtxObj) (repo branch : option string)
    (local_repo_path hard_flag_dir : string)
  : M (string * loc * RegistryDiff) :=
  hard_flag_dir ← lift (str_format hard_flag_dir ctx);
  open_repo repo local_repo_path;;
  logger INFO "Checkout branch {branch}" [AOpt branch];;
  emit (EvCheckout branch);;
  w ← get_world;
  f ← lift (git_checkout local_repo_path branch (fs w));
  set_fs f;;
  logger INFO "Compare active dataset vs HEAD" [];;
  let erddap := erddap ctx in
  self ← receiver erddap "copy";
  intial_erddap ← copy self;
  emit EvPull;;
  w ← get_world;
  f ← lift (git_pull local_repo_path (fs w));
  set_fs f;;
  reload self;;
  diff ← diff_with self intial_erddap;
  ret (hard_flag_dir, self, diff).

(** Lines 149-152 of [sync]. *)
Definition sync_update (erddap : loc) (local_repo_path : string)
    (diff : RegistryDiff) : M unit :=
  when (any_values diff)
    (logger INFO "Update datasets.xml" [];;
     to_xml erddap local_repo_path ∅).

(** Lines 154-158 of [sync]. *)
Definition sync_flags (hard_flag : bool) (hard_flag_dir : string)
    (diff : RegistryDiff) : M unit :=
  when hard_flag
    (for_each diff (λ '(datasetID, datasetDiff),
       logger INFO "Generate hard flag for {datatset.dataset_id}" [];;
       logger DEBUG "Diff: {}" [ADiff datasetDiff];;
       p ← lift (str_truediv hard_flag_dir datasetID);
       write_text p "")).

(** Lines 124-160. *)
Definition sync (ctx : CtxObj) (repo branch : option string)
    (local_repo_path : string) (hard_flag : bool) (hard_flag_dir : string)
  : M unit :=
  '(hard_flag_dir, erddap, diff) ←
     sync_compare ctx repo branch local_repo_path hard_flag_dir;
  sync_update erddap local_repo_path diff;;
  sync_flags hard_flag hard_flag_dir diff;;
  logger INFO "Erddap datasets.xml has been updated" [].

(** Lines 166-179.  The fixture defined at lines 169-171 is a local
    function that the body never calls. *)
Definition test (ctx : CtxObj) (test_filter : option string) : M unit :=
  let args := ["--pyargs"; "erddap_deploy"] ++
              match test_filter with
              | Some k => if str_truth k then ["-k"; k] else []
              | None => []
              end in
  logger INFO "Run pytest.main({args})" [AKeys args];;
  emit (EvPytest args);;
  w ← get_world;
  '(returned, wp) ← lift (pytest_main args w);
  set_state wp;;
  result ← exit_code_value returned;
  if bool_decide (result = 0%Z) then ret tt else raise (SystemExit result).

(** *** The process *)

Inductive Subcommand : Type :=
  | Save (output : string)
  | Sync (repo branch : option string) (local_repo_path : string)
         (hard_flag : bool) (hard_flag_dir : string)
  | Test (test_filter : option string).

Record GroupOptions : Type := mkGroupOptions {
  opt_datasets_xml : string;
  opt_datasets_d : string;
  opt_recursive : bool;
  opt_big_parent_directory : string;
  opt_log_level : string
}.

(** The defaults of the group's options (lines 14-43). *)
Definition default_options : GroupOptions :=
  {| opt_datasets_xml := "/usr/local/tomcat/content/erddap/datasets.xml";
     opt_datasets_d := "datasets.d/*.xml";
     opt_recursive := true;
     opt_big_parent_directory := "/erddapData";
     opt_log_level := "INFO" |}.

(** The command a subcommand name stands for. *)
Definition subcommand (ctx : CtxObj) (c : Subcommand) : M unit :=
  match c with
  | Save output => save ctx output
  | Sync repo branch local_repo_path hard_flag hard_flag_dir =>
      sync ctx repo branch local_repo_path hard_flag hard_flag_dir
  | Test test_filter => test ctx test_filter
  end.

(** The group entered as [main()], with no keyword argument, as an
    installed console script or a test runner does: click runs the group
    callback, then the subcommand, with the context object the callback
    filled.  (Not the file's own entry point: see [dunder_main].) *)
Definition invoke (o : GroupOptions) (c : Subcommand) : M unit :=
  ctx ← main (opt_datasets_xml o) (opt_datasets_d o) (opt_recursive o)
             (opt_big_parent_directory o) (opt_log_level o);
  subcommand ctx c.

(** Lines 182-183, the file run as a module: [main(auto_var_prefix=
    "ERDDAP")].  click hands the keywords it does not know to the
    constructor of its context, which has no parameter of that name: a
    [TypeError], raised before the arguments are parsed and before any
    callback. *)
Definition dunder_main : M unit :=
  raise (TypeError
    "Context.__init__() got an unexpected keyword argument 'auto_var_prefix'").

(** The exit status of the process: 0 on return, the low eight bits of the
    code of a [SystemExit], 1 for any other uncaught exception. *)
Definition exit_status {A} (o : Outcome A) : Z :=
  match o with
  | Returns _ => 0
  | Raises (SystemExit code) => code `mod` 256
  | Raises _ => 1
  end.
End commands.

End Cli.

(* ===================================================================== *)
(** ** A concrete environment, for examples                               *)
(* ===================================================================== *)

Module Demo.
Import Engine Cli.

(** A glob library that knows one pattern, and the override policy. *)
#[export] Instance demo_loader : LoaderEnv := {|
  glob_match pat rec p :=
    bool_decide (pat = "datasets.d/*.xml") && String.prefix "datasets.d/" p;
  dup_policy := DupLastWins
|}.

(** Two datasets; the source of the first varies. *)
Definition buoy1 (url : string) : Dataset :=
  mkDataset "buoy1" "EDDTableFromNcFiles"
    [("srcUrl", VScalar url); ("password", VScalar "placeholder")].

Definition buoy2 : Dataset :=
  mkDataset "buoy2" "EDDGridFromDap"
    [("reloadEveryNMinutes", VNumeric 60);
     ("addAttributes", VBlock [("title", VScalar "Buoy 2")])].

(** The fragment that defines both, and the one that overrides [srcUrl]
    (scenario 3 of the specification). *)
Definition base_doc : Document :=
  mkDocument [("bigParentDirectory", VScalar "/erddapData")]
    [block_of_dataset (buoy1 "http://a"); block_of_dataset buoy2].

Definition override_doc : Document :=
  mkDocument []
    [mkBlock "buoy1" "EDDTableFromNcFiles" [("srcUrl", VScalar "http://b")]].

(** The registry before the override, and after. *)
Definition base_registry : Registry :=
  mkRegistry [buoy1 "http://a"; buoy2]
    [("bigParentDirectory", VScalar "/erddapData")]
    (FragmentSet "datasets.d/*.xml" true).

Definition pulled_registry : Registry :=
  mkRegistry [buoy1 "http://b"; buoy2]
    [("bigParentDirectory", VScalar "/erddapData")]
    (FragmentSet "datasets.d/*.xml" true).

(** What reading finds: the two fragments, and a rendering of the base
    registry. *)
Definition demo_read (p : string) : option FileContent :=
  if decide (p = "datasets.d/010-base.xml")
  then Some (Structured base_doc)
  else if decide (p = "datasets.d/020-override.xml")
  then Some (Structured override_doc)
  else if decide (p = "/srv/datasets.xml")
  then Some (Structured (render base_registry))
  else None.

(** A host whose [git pull] brings in the overriding fragment, whose test
    suite passes, and where a DatasetDiff is true when it records a change. *)
#[export] Instance demo_host : Host := {|
  str_format s ctx :=
    if decide (s = "{datasets_xml}") then inr (datasets_xml ctx)
    else if decide (s = "{bigParentDirectory}/erddap/hardFlag")
         then inr (bigParentDirectory ctx +:+ "/erddap/hardFlag")
         else inr s;
  repo_clone_from repo p f := inr (mkFileSystem (files f) ({[p]} ∪ dirs f));
  repo_open p f := inr tt;
  git_checkout p b f := inr f;
  git_pull p f :=
    inr (mkFileSystem
           (<["datasets.d/020-override.xml" := Structured override_doc]>
              (files f))
           (dirs f));
  pytest_main args w := inr (0%Z, w);
  truthy := changed
|}.

(** Nothing on disk, nothing in the environment, no object. *)
Definition empty_world : World :=
  mkWorld (mkFileSystem ∅ ∅) ∅ [] [].

(** One fragment on disk, one secret in the environment, and the registry
    loaded from it. *)
Definition base_world : World :=
  mkWorld
    (mkFileSystem {["datasets.d/010-base.xml" := Structured base_doc]} ∅)
    {["ERDDAP_SECRET_buoy1_password" := "p@ss"; "HOME" := "/root"]}
    [base_registry] [].

(** The context [main] leaves for it. *)
Definition base_ctx : CtxObj :=
  mkCtxObj (Some 0) "/srv/datasets.xml" "datasets.d/*.xml" true "/erddapData".

(** The arguments of a [sync] run, and the worlds it goes through. *)
Definition demo_repo : option string := Some "https://example.org/datasets.git".
Definition demo_branch : option string := Some "main".
Definition demo_path : string := "erddap-datasets".
Definition demo_flag_dir : string := "{bigParentDirectory}/erddap/hardFlag".

Definition cloned_world : World :=
  (open_repo demo_repo demo_path base_world).2.

Definition pulled_fs : FileSystem :=
  mkFileSystem
    (<["datasets.d/020-override.xml" := Structured override_doc]>
       (files (fs cloned_world)))
    (dirs (fs cloned_world)).

(** A fragment that does not parse. *)
Definition malformed_world : World :=
  mkWorld
    (mkFileSystem
       {["datasets.d/010-base.xml" := RawText "<erddapDatasets"]} ∅)
    ∅ [] [].

(** Neither a glob nor an existing monolithic file. *)
Definition no_source_options : GroupOptions :=
  {| opt_datasets_xml := "/missing/datasets.xml";
     opt_datasets_d := "";
     opt_recursive := true;
     opt_big_parent_directory := "/erddapData";
     opt_log_level := "INFO" |}.

(** Scenario 2 of the specification: datasets [{x, y}] against [{y, z}]. *)
Definition plain (i : string) : Dataset :=
  mkDataset i "EDDTableFromNcFiles" [("active", VScalar "true")].

Definition registry_xy : Registry :=
  mkRegistry [plain "x"; plain "y"] [] (SingleFile "a.xml").

Definition registry_yz : Registry :=
  mkRegistry [plain "y"; plain "z"] [] (SingleFile "b.xml").

End Demo.

(* ===================================================================== *)
(** ** Views on the commands, and hosts that fail                         *)
(* ===================================================================== *)

Module CliViews.
Import Engine Cli.

(** The argument list [test] builds at lines 173-175. *)
Definition pytest_args (test_filter : option string) : list string :=
  ["--pyargs"; "erddap_deploy"] ++
  match test_filter with
  | Some k => if str_truth k then ["-k"; k] else []
  | None => []
  end.


(** The world [sync] leaves after lines 149-152, from the world [wc] after
    lines 127-147, when the live object holds [R]: the registry rendered at
    [local_repo_path] if some entry of the diff is true, [wc] otherwise. *)
Definition after_update `{!Host} (self : loc) (local_repo_path : string)
    (d : RegistryDiff) (R : Registry) (wc : World) : World :=
  if any_values d then
    mkWorld
      (mkFileSystem
         (<[local_repo_path := Structured (render R)]> (files (fs wc)))
         (dirs (fs wc)))
      (environ wc) (heap wc)
      (trace wc ++ [EvLog INFO "Update datasets.xml" [];
                    EvToXml self local_repo_path ∅])
  else wc.

(** What lines 154-160 of [sync] add to a world [wu], and how the command
    ends: on the first entry of the diff when the hard flag is on, with the
    closing log record otherwise. *)
Definition sync_ending (hard_flag : bool) (d : RegistryDiff) (wu : World)
  : Outcome unit * World :=
  match hard_flag, d with
  | true, (_, dd) :: _ =>
      (Raises (TypeError "unsupported operand type(s) for /: 'str' and 'str'"),
       record [EvLog INFO "Generate hard flag for {datatset.dataset_id}" [];
               EvLog DEBUG "Diff: {}" [ADiff dd]] wu)
  | _, _ =>
      (Returns tt,
       record [EvLog INFO "Erddap datasets.xml has been updated" []] wu)
  end.

End CliViews.

Module Faults.
Import Engine Cli Demo.

(** The host of the examples, with a [git checkout] or a [git pull] that
    can fail. *)
Definition flaky_host (checkout_ok pull_ok : bool) : Host := {|
  str_format := @str_format demo_host;
  repo_clone_from := @repo_clone_from demo_host;
  repo_open := @repo_open demo_host;
  git_checkout p b f :=
    if checkout_ok then inr f
    else inl (LibraryError "git" "pathspec did not match");
  git_pull p f :=
    if pull_ok then @git_pull demo_host p f
    else inl (LibraryError "git" "could not read from remote");
  pytest_main := @pytest_main demo_host;
  truthy := changed
|}.

(** The host of the examples, with a [str.format] that knows no other
    field than the two it is given. *)
Definition strict_host : Host := {|
  str_format s ctx :=
    if decide (s = "{datasets_xml}") then inr (datasets_xml ctx)
    else if decide (s = "{bigParentDirectory}/erddap/hardFlag")
         then inr (bigParentDirectory ctx +:+ "/erddap/hardFlag")
         else if String.prefix "{" s
              then inl (LibraryError "str.format" "KeyError")
              else inr s;
  repo_clone_from := @repo_clone_from demo_host;
  repo_open := @repo_open demo_host;
  git_checkout := @git_checkout demo_host;
  git_pull := @git_pull demo_host;
  pytest_main := @pytest_main demo_host;
  truthy := changed
|}.

(** The base world, with one more fragment on disk that does not parse
    (it appeared after the registry was loaded). *)
Definition spoiled_world : World :=
  mkWorld
    (mkFileSystem
       (<["datasets.d/005-bad.xml" := RawText "<dataset"]>
          (files (fs base_world)))
       ∅)
    (environ base_world) (heap base_world) [].

(** A pull that brings nothing new: the fragment it writes is already
    there. *)
Definition settled_world : World :=
  mkWorld
    (mkFileSystem
       (<["datasets.d/020-override.xml" := Structured override_doc]>
          (files (fs base_world)))
       {["erddap-datasets"; "erddap-datasets/datasets.d"]})
    (environ base_world) [pulled_registry] [].

(** The worlds the runs from [spoiled_world] and [settled_world] go
    through. *)
Definition spoiled_cloned : World :=
  (open_repo demo_repo demo_path spoiled_world).2.

Definition spoiled_pulled_fs : FileSystem :=
  mkFileSystem
    (<["datasets.d/020-override.xml" := Structured override_doc]>
       (files (fs spoiled_cloned)))
    (dirs (fs spoiled_cloned)).

Definition settled_opened : World :=
  (open_repo demo_repo demo_path settled_world).2.

(** Both sources on disk: the base fragment, and a monolithic
    [/srv/datasets.xml] that holds other datasets. *)
Definition both_fs : FileSystem :=
  mkFileSystem
    (<["/srv/datasets.xml" := Structured (render registry_xy)]>
       (files (fs base_world)))
    ∅.

(** A process that has loaded nothing yet, on those files. *)
Definition fresh_world : World :=
  mkWorld both_fs (environ base_world) [] [].



(** The group options with a log level that does not exist. *)
Definition verbose_options : GroupOptions :=
  {| opt_datasets_xml := "/srv/datasets.xml";
     opt_datasets_d := "datasets.d/*.xml";
     opt_recursive := true;
     opt_big_parent_directory := "/erddapData";
     opt_log_level := "VERBOSE" |}.

(** The host of the examples, with a test suite that writes a report and
    has a failing test. *)
Definition failing_tests_host : Host := {|
  str_format := @str_format demo_host;
  repo_clone_from := @repo_clone_from demo_host;
  repo_open := @repo_open demo_host;
  git_checkout := @git_checkout demo_host;
  git_pull := @git_pull demo_host;
  pytest_main args w :=
    inr (1%Z,
         mkWorld
           (mkFileSystem (<[".pytest_cache/lastfailed" := RawText "{}"]>
                            (files (fs w)))
                         (dirs (fs w)))
           (environ w) (heap w) (trace w));
  truthy := changed
|}.

End Faults.

(* ===================================================================== *)
(** ** Facts about ordered mappings                                       *)
(* ===================================================================== *)

Module AssocFacts.
Section facts.
Context {V : Type}.
Implicit Types (l old new : list (string * V)) (k : string) (v : V).

Lemma get_None k l : Assoc.get k l = None ↔ k ∉ Assoc.keys l.
Proof.
  unfold Assoc.keys. induction l as [|[k' v'] r IH]; simpl.
  - split; [intros _; apply not_elem_of_nil | done].
  - case_decide; subst.
    + split; [done | intros Hn; destruct Hn; left].
    + rewrite IH, not_elem_of_cons. tauto.
Qed.

Lemma set_fresh k v l : k ∉ Assoc.keys l → Assoc.set k v l = l ++ [(k, v)].
Proof.
  unfold Assoc.keys. induction l as [|[k' v'] r IH]; simpl; [done|].
  rewrite not_elem_of_cons. intros [Hne Hr].
  case_decide; [done|]. by rewrite IH.
Qed.

  (** Updating with bindings whose keys are new and distinct appends them
    in order. *)
Lemma update_app_fresh old new :
  NoDup (Assoc.keys (old ++ new)) → Assoc.update old new = old ++ new.
Proof.
  unfold Assoc.update. revert old.
  induction new as [|[k v] r IH]; intros old Hnd; simpl.
  - by rewrite app_nil_r.
  - assert (Hk : k ∉ Assoc.keys old).
    { unfold Assoc.keys in *. rewrite fmap_app in Hnd.
      apply NoDup_app in Hnd as (_ & Hd & _).
      intros Hin. apply (Hd _ Hin). simpl. left. }
    rewrite set_fresh by done.
    rewrite IH; [by rewrite <- app_assoc|].
    by rewrite <- app_assoc.
Qed.

Lemma update_nil_NoDup l :
  NoDup (Assoc.keys l) → Assoc.update (V:=V) [] l = l.
Proof. intros. by apply (update_app_fresh []). Qed.
End facts.
End AssocFacts.


(* ===================================================================== *)
(** ** The Loader and the Serializer                                      *)
(* ===================================================================== *)

Module LoaderFacts.
Import Engine.

Section determinism.
Context `{!LoaderEnv}.

(** Sorting makes the candidate list a function of the set of files, not of
    the order in which the file system enumerates them. *)
Lemma candidates_Permutation (l1 l2 : list string) (src : Source) :
  l1 ≡ₚ l2 → candidates l1 src = candidates l2 src.
Proof.
  intros Hp. destruct src as [p|pat rec]; simpl; [done|].
  apply (Sorted_unique String.le).
  - apply Sorted_merge_sort; apply _.
  - apply Sorted_merge_sort; apply _.
  - rewrite !merge_sort_Permutation. by rewrite Hp.
Qed.


End determinism.

(** With no secrets to merge, the copy is the registry itself. *)
Lemma merge_secrets_empty (R : Registry) : (merge_secrets R ∅).1 = R.
Proof.
  unfold merge_secrets. destruct R as [ds st src]. simpl. f_equal.
  rewrite <- (list_fmap_id ds) at 2. apply list_fmap_ext.
  intros _ [i t a] _. unfold overlay_dataset. simpl. f_equal.
  rewrite <- (list_fmap_id a) at 2. apply list_fmap_ext.
  intros _ kv _. by rewrite lookup_empty.
Qed.

End LoaderFacts.

(* ===================================================================== *)
(** ** The Diff Engine                                                    *)
(* ===================================================================== *)

Module DiffFacts.
Import Engine.

Lemma fields_eqb_refl (f : Attrs) :
  Forall (λ kv, Value_eqb kv.2 kv.2 = true) f →
  (fix fields_eqb (f g : Attrs) {struct f} : bool :=
     match f, g with
     | [], [] => true
     | (k, v) :: f', (k', v') :: g' =>
         bool_decide (k = k') && Value_eqb v v' && fields_eqb f' g'
     | _, _ => false
     end) f f = true.
Proof.
  induction 1 as [|[k v] r Hv _ IH]; [done|]. simpl in Hv.
  rewrite bool_decide_eq_true_2 by done. by rewrite Hv, IH.
Qed.

(** Deep equality holds between a value and itself: two independently
    loaded but identical nested blocks compare equal. *)
Lemma Value_eqb_refl (v : Value) : Value_eqb v v = true.
Proof.
  induction v as [s|z|f IH|xs IH] using Value_ind; simpl.
  - by apply bool_decide_eq_true_2.
  - by apply bool_decide_eq_true_2.
  - by apply fields_eqb_refl.
  - induction IH as [|f r Hf _ IHr]; [done|].
    by rewrite (fields_eqb_refl f Hf), IHr.
Qed.

Lemma fields_eqb_eq (f : Attrs) :
  Forall (λ kv, ∀ b, Value_eqb kv.2 b = true → kv.2 = b) f →
  ∀ g,
  (fix fields_eqb (f g : Attrs) {struct f} : bool :=
     match f, g with
     | [], [] => true
     | (k, v) :: f', (k', v') :: g' =>
         bool_decide (k = k') && Value_eqb v v' && fields_eqb f' g'
     | _, _ => false
     end) f g = true → f = g.
Proof.
  induction 1 as [|[k v] r Hv _ IH]; intros [|[k' v'] g]; try done.
  simpl in Hv. intros H.
  apply andb_prop in H as [H Hr]. apply andb_prop in H as [Hk Hvv].
  apply bool_decide_eq_true_1 in Hk. subst k'.
  by rewrite (Hv _ Hvv), (IH _ Hr).
Qed.

(** ... and only between equal values. *)
Lemma Value_eqb_eq (a b : Value) : Value_eqb a b = true → a = b.
Proof.
  revert b. induction a as [s|z|f IH|xs IH] using Value_ind;
    intros [t|y|g|ys]; simpl; try done.
  - intros H. by apply bool_decide_eq_true_1 in H as ->.
  - intros H. by apply bool_decide_eq_true_1 in H as ->.
  - intros H. by rewrite (fields_eqb_eq f IH g H).
  - intros H. f_equal. revert ys H.
    induction IH as [|f r Hf _ IHr]; intros [|g ys]; try done.
    intros H. apply andb_prop in H as [Hfg Hr].
    by rewrite (fields_eqb_eq f Hf g Hfg), (IHr _ Hr).
Qed.

Lemma find_dataset_None (i : string) (ds : list Dataset) :
  find_dataset i ds = None ↔ i ∉ dataset_id <$> ds.
Proof.
  unfold find_dataset. split.
  - intros H Hin. apply list_elem_of_fmap in Hin as (d & -> & Hd).
    destruct (list_find _ ds) as [[n d']|] eqn:E; [done|].
    eapply list_find_None in E. rewrite Forall_forall in E. by apply (E d).
  - intros Hn. destruct (list_find _ ds) as [[n d]|] eqn:E; [|done].
    apply list_find_Some in E as (Hl & Hid & _).
    destruct Hn. apply list_elem_of_fmap. exists d. split; [done|].
    by eapply list_elem_of_lookup_2.
Qed.

Lemma find_dataset_Some (i : string) (ds : list Dataset) (d : Dataset) :
  find_dataset i ds = Some d → dataset_id d = i ∧ d ∈ ds.
Proof.
  unfold find_dataset.
  destruct (list_find _ ds) as [[n d']|] eqn:E; [|done].
  simpl. intros [= <-]. apply list_find_Some in E as (Hl & Hid & _).
  split; [done|]. by eapply list_elem_of_lookup_2.
Qed.

Lemma find_dataset_is_Some (i : string) (ds : list Dataset) :
  i ∈ dataset_id <$> ds → is_Some (find_dataset i ds).
Proof.
  intros Hin. destruct (find_dataset i ds) eqn:E; [by eexists|].
  by apply find_dataset_None in E.
Qed.

Section diff.
Variables A B : Registry.

Lemma diff_entry_key (i j : string) (d : DatasetDiff) :
  diff_entry A B i = Some (j, d) → j = i.
Proof.
  unfold diff_entry.
  destruct (find_dataset i (datasets A)), (find_dataset i (datasets B));
    naive_solver.
Qed.

Lemma diff_entry_is_Some (i : string) :
  i ∈ ids A ++ ids B → is_Some (diff_entry A B i).
Proof.
  rewrite elem_of_app. unfold diff_entry, ids.
  intros [H|H]; apply find_dataset_is_Some in H as [d Hd]; rewrite Hd.
  - destruct (find_dataset i (datasets B)); by eexists.
  - destruct (find_dataset i (datasets A)); by eexists.
Qed.

Lemma diff_keys_of (l : list string) :
  (∀ i, i ∈ l → is_Some (diff_entry A B i)) →
  (omap (diff_entry A B) l).*1 = l.
Proof.
  induction l as [|j r IH]; intros Hall; [done|]. simpl.
  destruct (Hall j) as [[j' d] Hj]; [left|].
  rewrite Hj. simpl. rewrite (diff_entry_key _ _ _ Hj).
  f_equal. apply IH. intros i Hi. apply Hall. by right.
Qed.

Lemma diff_get_of (l : list string) (i : string) :
  (∀ j, j ∈ l → is_Some (diff_entry A B j)) →
  i ∈ l →
  Assoc.get i (omap (diff_entry A B) l) = snd <$> diff_entry A B i.
Proof.
  induction l as [|j r IH]; intros Hall Hi; [by apply elem_of_nil in Hi|].
  simpl. destruct (Hall j) as [[j' d] Hj]; [left|].
  rewrite Hj. simpl. pose proof (diff_entry_key _ _ _ Hj) as ->.
  case_decide as Hij.
  - subst. by rewrite Hj.
  - apply IH; [intros ??; apply Hall; by right|].
    apply elem_of_cons in Hi as [?|?]; done.
Qed.

(** The identifiers of a RegistryDiff are the union of both sides', each
    once. *)
Lemma diff_keys : (diff A B).*1 = remove_dups (ids A ++ ids B).
Proof.
  apply diff_keys_of. intros i Hi. apply diff_entry_is_Some.
  by apply elem_of_remove_dups.
Qed.

Lemma diff_get (i : string) :
  i ∈ ids A ++ ids B →
  Assoc.get i (diff A B) = snd <$> diff_entry A B i.
Proof.
  intros Hi. apply diff_get_of.
  - intros j Hj. apply diff_entry_is_Some. by apply elem_of_remove_dups.
  - by apply elem_of_remove_dups.
Qed.

End diff.

Lemma value_changes_same (a : Attrs) : value_changes a a = [].
Proof.
  unfold value_changes. generalize (Assoc.keys a) as ks.
  induction ks as [|k r IH]; [done|]. simpl.
  destruct (Assoc.get k a) as [v|]; [|done].
  by rewrite Value_eqb_refl.
Qed.

Lemma filter_not_own_keys (a : Attrs) :
  filter (λ kv, kv.1 ∉ Assoc.keys a) a = [].
Proof.
  apply elem_of_nil_inv. intros kv Hin.
  apply list_elem_of_filter in Hin as [Hn Hin].
  apply Hn. unfold Assoc.keys. apply list_elem_of_fmap. by exists kv.
Qed.

(** A dataset compared with itself shows no change. *)
Lemma compare_datasets_same (d : Dataset) :
  compare_datasets d d = mkDatasetDiff InBoth [] [] [] false.
Proof.
  unfold compare_datasets.
  by rewrite filter_not_own_keys, value_changes_same.
Qed.

Section claims.
Variables A B : Registry.

(** C2. [diff A B] has exactly one entry per dataset identifier of [A] or
    [B] and no other; an identifier of [A] alone is marked fully removed,
    an identifier of [B] alone fully added, each with [changed = true]; and
    an identifier bound to the same dataset on both sides has an entry with
    [changed = false]. *)
Theorem diff_covers_union :
  (∀ i, i ∈ (diff A B).*1 ↔ i ∈ ids A ∨ i ∈ ids B) ∧
  NoDup (diff A B).*1 ∧
  (∀ i, i ∈ ids A → i ∉ ids B →
     ∃ d, find_dataset i (datasets A) = Some d ∧
          Assoc.get i (diff A B) = Some (fully_removed d) ∧
          changed (fully_removed d) = true) ∧
  (∀ i, i ∉ ids A → i ∈ ids B →
     ∃ d, find_dataset i (datasets B) = Some d ∧
          Assoc.get i (diff A B) = Some (fully_added d) ∧
          changed (fully_added d) = true) ∧
  (∀ i d, find_dataset i (datasets A) = Some d →
          find_dataset i (datasets B) = Some d →
     ∃ dd, Assoc.get i (diff A B) = Some dd ∧ changed dd = false).
Proof.
  split_and!.
  - intros i. by rewrite diff_keys, elem_of_remove_dups, elem_of_app.
  - rewrite diff_keys. apply NoDup_remove_dups.
  - intros i HA HB. destruct (find_dataset_is_Some _ _ HA) as [d Hd].
    exists d. split_and!; [done| |done].
    rewrite diff_get by (apply elem_of_app; by left).
    unfold diff_entry. rewrite Hd.
    by apply find_dataset_None in HB as ->.
  - intros i HA HB. destruct (find_dataset_is_Some _ _ HB) as [d Hd].
    exists d. split_and!; [done| |done].
    rewrite diff_get by (apply elem_of_app; by right).
    unfold diff_entry. rewrite Hd.
    by apply find_dataset_None in HA as ->.
  - intros i d HA HB. eexists. split.
    + rewrite diff_get.
      * unfold diff_entry. rewrite HA, HB. simpl. reflexivity.
      * apply elem_of_app. left. apply find_dataset_Some in HA as [<- Hin].
        unfold ids. apply list_elem_of_fmap. by exists d.
    + by rewrite compare_datasets_same.
Qed.

End claims.

End DiffFacts.

(* ===================================================================== *)
(** ** Round trip and determinism of the Loader                           *)
(* ===================================================================== *)

Module LoaderClaims.
Import Engine LoaderFacts.

Section claims.
Context `{!LoaderEnv}.

(** C7. Two runs of load-then-render over the same files give the same
    output, in whatever order the file system enumerates the files on each
    run: the candidates are sorted before they are merged. *)
Theorem load_render_deterministic (read : string → option FileContent)
    (listing1 listing2 : list string) (src : Source) :
  listing1 ≡ₚ listing2 →
  load_and_render read listing1 src = load_and_render read listing2 src.
Proof.
  intros Hp. unfold load_and_render, load.
  by rewrite (candidates_Permutation listing1 listing2 src Hp).
Qed.

End claims.

Import Demo.

Lemma load_render_deterministic_witness :
  ["datasets.d/020-override.xml"; "datasets.d/010-base.xml"]
    ≡ₚ ["datasets.d/010-base.xml"; "datasets.d/020-override.xml"] ∧
  load_and_render demo_read
    ["datasets.d/020-override.xml"; "datasets.d/010-base.xml"]
    (FragmentSet "datasets.d/*.xml" true)
  = load_and_render demo_read
    ["datasets.d/010-base.xml"; "datasets.d/020-override.xml"]
    (FragmentSet "datasets.d/*.xml" true).
Proof.
  split; [apply perm_swap|].
  apply load_render_deterministic. apply perm_swap.
Defined.

(** Scenario 3 of the specification: the later fragment overrides
    [srcUrl], and there is one [buoy1]. *)
Example scenario_override :
  load demo_read
    ["datasets.d/020-override.xml"; "datasets.d/010-base.xml"]
    (FragmentSet "datasets.d/*.xml" true)
  = inr (pulled_registry, []).
Proof. vm_compute. reflexivity. Qed.

(** Why the candidates must be sorted: merged in the other order, the same
    two fragments give another registry. *)
Example merge_order_matters :
  fold_files demo_read ([], [])
    ["datasets.d/010-base.xml"; "datasets.d/020-override.xml"]
  ≠ fold_files demo_read ([], [])
    ["datasets.d/020-override.xml"; "datasets.d/010-base.xml"].
Proof. vm_compute. discriminate. Qed.

End LoaderClaims.

(* ===================================================================== *)
(** ** Running the commands                                               *)
(* ===================================================================== *)

Module CliFacts.
Import Engine Cli CliViews.

(** Unfold the monad and the primitive operations, then the projections of
    the worlds built on the way. *)
Ltac run :=
  cbv beta iota zeta delta
    [mbind M_bind bind mret M_ret ret raise lift get_world emit emit_all
     set_fs set_heap when logger receiver deref write_text];
  cbn [fs environ heap trace files dirs fst snd].

Ltac run_with H := rewrite ?H; run.

Section methods.
Context `{!LoaderEnv}.

Lemma to_xml_run (self : loc) (out : string) (s : gmap string string)
    (w : World) (R : Registry) :
  heap w !! self = Some R →
  to_xml self out s w =
    (Returns tt,
     mkWorld
       (mkFileSystem
          (<[out := Structured (render (merge_secrets R s).1)]> (files (fs w)))
          (dirs (fs w)))
       (environ w) (heap w)
       ((trace w ++ [EvToXml self out s])
          ++ (EvWarning <$> (merge_secrets R s).2))).
Proof.
  intros HR. unfold to_xml. run. rewrite HR. unfold merge_secrets. run.
  reflexivity.
Qed.





End methods.

Section save.
Context `{!LoaderEnv, !Host}.



(** A method call on [None] raises before anything is written. *)
Lemma save_None (ctx : CtxObj) (output : string) (w : World) :
  erddap ctx = None →
  ∃ e, (save ctx output w).1 = Raises e ∧
       fs (save ctx output w).2 = fs w ∧
       (∀ out, str_format output ctx = inr out → e = AttributeError "to_xml").
Proof.
  intros Hctx. unfold save. run. rewrite Hctx.
  destruct (str_format output ctx) as [e|out]; run.
  - exists e. by split_and!.
  - by eexists.
Qed.

End save.

Section traces.

Lemma erddap_calls_app (t1 t2 : list Event) :
  erddap_calls (t1 ++ t2) = erddap_calls t1 ++ erddap_calls t2.
Proof. apply omap_app. Qed.

Lemma erddap_calls_warnings (ws : list Warning) :
  erddap_calls (EvWarning <$> ws) = [].
Proof. by induction ws. Qed.

Lemma to_xml_calls_app (t1 t2 : list Event) :
  to_xml_calls (t1 ++ t2) = to_xml_calls t1 ++ to_xml_calls t2.
Proof. apply omap_app. Qed.

Lemma to_xml_calls_warnings (ws : list Warning) :
  to_xml_calls (EvWarning <$> ws) = [].
Proof. by induction ws. Qed.

Lemma written_paths_app (t1 t2 : list Event) :
  written_paths (t1 ++ t2) = written_paths t1 ++ written_paths t2.
Proof. apply omap_app. Qed.

Lemma written_paths_warnings (ws : list Warning) :
  written_paths (EvWarning <$> ws) = [].
Proof. by induction ws. Qed.

End traces.

Section main.
Context `{!LoaderEnv, !Host}.

Lemma Erddap_run (src : Source) (w : World) :
  Erddap src w =
    match load_from (fs w) src with
    | inl e => (Raises (LoadFailed e), record [EvErddap src] w)
    | inr (R, warns) =>
        (Returns (length (heap w)),
         mkWorld (fs w) (environ w) (heap w ++ [R])
                 ((trace w ++ [EvErddap src]) ++ (EvWarning <$> warns)))
    end.
Proof.
  unfold Erddap. run.
  by destruct (load_from _ src) as [e|[R warns]].
Qed.

Lemma main_run_with (src : Source) (message arg : string)
    (xml d : string) (r : bool) (bpd lvl : string) (w : World) :
  lvl ∈ loguru_levels →
  (str_truth d = true ∧ src = FragmentSet d r ∧
     message = "Load datasets_d={}" ∧ arg = d) ∨
  (str_truth d = false ∧ path_exists (fs w) xml = true ∧
     src = SingleFile xml ∧ message = "Load datasets_xml={}" ∧ arg = xml) →
  main xml d r bpd lvl w =
    match load_from (fs w) src with
    | inl e =>
        (Raises (LoadFailed e),
         record (main_prologue lvl message arg ++ [EvErddap src]) w)
    | inr (R, warns) =>
        (Returns (mkCtxObj (Some (length (heap w))) xml d r bpd),
         mkWorld (fs w) (environ w) (heap w ++ [R])
           (trace w ++ main_prologue lvl message arg ++ [EvErddap src]
              ++ (EvWarning <$> warns)
              ++ [EvLog INFO "Load datasets_xml={datasets_xml}" []]))
    end.
Proof.
  intros Hlvl [(Hd & -> & -> & ->)|(Hd & Hx & -> & -> & ->)];
    unfold main, logger_add; rewrite Hd; run;
    rewrite (bool_decide_eq_true_2 _ Hlvl); run; rewrite ?Hx; run;
    rewrite Erddap_run; unfold record, main_prologue;
    cbn [fs environ heap trace files dirs];
    (destruct (load_from _ _) as [e|[R warns]]; run;
     by rewrite <- !app_assoc).
Qed.

Lemma main_run_none (xml d : string) (r : bool) (bpd lvl : string) (w : World) :
  lvl ∈ loguru_levels →
  str_truth d = false →
  path_exists (fs w) xml = false →
  main xml d r bpd lvl w =
    (Returns (mkCtxObj None xml d r bpd),
     record [EvLoggerSetup lvl; EvLog DEBUG "Load erddap dataset" [];
             EvLog ERROR "No datasets.xml found" [];
             EvLog INFO "Load datasets_xml={datasets_xml}" []] w).
Proof.
  intros Hlvl Hd Hx. unfold main, logger_add. rewrite Hd. run.
  rewrite (bool_decide_eq_true_2 _ Hlvl). run. rewrite Hx. run.
  unfold record. by rewrite <- !app_assoc.
Qed.

(** A level [loguru] does not know ends [main] at line 54, before a source
    is looked for. *)
Lemma main_run_bad_level (xml d : string) (r : bool) (bpd lvl : string)
    (w : World) :
  lvl ∉ loguru_levels →
  main xml d r bpd lvl w =
    (Raises (ValueError ("Level '" +:+ lvl +:+ "' does not exist")),
     record [EvLoggerSetup lvl] w).
Proof.
  intros Hlvl. unfold main, logger_add. run.
  by rewrite (bool_decide_eq_false_2 _ Hlvl).
Qed.

(** The file run as a module ends before the group callback: nothing is
    logged, loaded or written, and the exit status is 1. *)
Lemma dunder_main_fails (w : World) :
  ∃ msg, dunder_main w = (Raises (TypeError msg), w) ∧
         exit_status (dunder_main w).1 = 1%Z.
Proof. by eexists. Qed.

End main.

Section sync.
Context `{!LoaderEnv, !Host}.

(** Obtaining the repository touches the file system and the trace only,
    and calls neither the Engine nor [write_text]. *)
Lemma open_repo_frame (repo : option string) (p : string) (w : World) :
  heap (open_repo repo p w).2 = heap w ∧
  environ (open_repo repo p w).2 = environ w ∧
  ∃ evs, trace (open_repo repo p w).2 = trace w ++ evs ∧
         to_xml_calls evs = [] ∧ written_paths evs = [].
Proof.
  unfold open_repo. run.
  destruct (negb _ || _); run.
  - destruct (repo_clone_from repo p (fs w)) as [e|f]; run;
      (split_and!; [done..|]; eexists; rewrite <- app_assoc; by split_and!).
  - destruct (repo_open p (fs w)) as [e|[]]; run;
      (split_and!; [done..|]; eexists; by split_and!).
Qed.

(** Lines 137-147, once the repository is there and every collaborator
    succeeds: checkout, snapshot, pull, reload on the pulled files, diff of
    the snapshot against the reloaded registry. *)
Lemma sync_compare_run (ctx : CtxObj) (repo branch : option string)
    (p hfd hfd' : string) (w w1 : World) (self : loc) (R0 R1 : Registry)
    (f2 f3 : FileSystem) (warns : list Warning) :
  str_format hfd ctx = inr hfd' →
  open_repo repo p w = (Returns tt, w1) →
  git_checkout p branch (fs w1) = inr f2 →
  erddap ctx = Some self →
  heap w1 !! self = Some R0 →
  git_pull p f2 = inr f3 →
  load_from f3 (provenance R0) = inr (R1, warns) →
  sync_compare ctx repo branch p hfd w =
    (Returns (hfd', self, diff R0 R1),
     mkWorld f3 (environ w1) (<[self := R1]> (heap w1 ++ [R0]))
       (trace w1 ++
          [EvLog INFO "Checkout branch {branch}" [AOpt branch];
           EvCheckout branch;
           EvLog INFO "Compare active dataset vs HEAD" [];
           EvCopy self (length (heap w1));
           EvPull;
           EvLoad self] ++
          (EvWarning <$> warns) ++ [EvDiff self (length (heap w1))])).
Proof.
  intros Hfmt Hopen Hco Hctx HR0 Hpull Hload.
  assert (Hlt : self < length (heap w1)) by by eapply lookup_lt_Some.
  unfold sync_compare. run. rewrite Hfmt. run. rewrite Hopen. run.
  rewrite Hco, Hctx. run.
  unfold copy. run. rewrite HR0. run. rewrite Hpull. run.
  unfold reload. run. rewrite (lookup_app_l_Some _ _ _ _ HR0). run.
  rewrite Hload. run.
  unfold diff_with. run.
  rewrite list_lookup_insert_eq by (rewrite length_app; simpl; lia).
  run.
  rewrite list_lookup_insert_ne by lia.
  rewrite lookup_app_r by lia. rewrite Nat.sub_diag. simpl.
  do 2 f_equal. by rewrite <- !app_assoc.
Qed.

(** Lines 149-152: nothing happens unless some entry is true. *)
Lemma sync_update_skip (self : loc) (p : string) (d : RegistryDiff)
    (w : World) :
  any_values d = false → sync_update self p d w = (Returns tt, w).
Proof. intros Hd. unfold sync_update. by rewrite Hd. Qed.


Lemma any_values_false (d : RegistryDiff) :
  (∀ i dd, (i, dd) ∈ d → truthy dd = false) → any_values d = false.
Proof.
  intros Hall. unfold any_values. apply not_true_is_false.
  intros (dd & Hin & Ht)%existsb_exists.
  apply list_elem_of_In, list_elem_of_fmap in Hin as ([i dd'] & -> & Hin).
  simpl in Ht. by rewrite (Hall i dd' Hin) in Ht.
Qed.

Lemma sync_update_run (self : loc) (p : string) (d : RegistryDiff)
    (w : World) (R : Registry) :
  any_values d = true →
  heap w !! self = Some R →
  sync_update self p d w =
    (Returns tt,
     mkWorld
       (mkFileSystem (<[p := Structured (render R)]> (files (fs w)))
                     (dirs (fs w)))
       (environ w) (heap w)
       (trace w ++ [EvLog INFO "Update datasets.xml" []; EvToXml self p ∅]
          ++ (EvWarning <$> (merge_secrets R ∅).2))).
Proof.
  intros Hd HR. unfold sync_update. rewrite Hd. run.
  erewrite to_xml_run by (cbn [heap]; exact HR).
  cbn [fs environ heap trace files dirs].
  rewrite <- !app_assoc. by rewrite LoaderFacts.merge_secrets_empty.
Qed.

(** Lines 154-158: with the flag on, the first entry of the diff, whatever
    it records, ends the loop with a [TypeError] before [write_text]: the
    body applies [/] to two [str].  With the flag off, or an empty diff,
    nothing happens. *)
Lemma sync_flags_run (hard_flag : bool) (hfd : string) (d : RegistryDiff)
    (w : World) :
  sync_flags hard_flag hfd d w =
    match hard_flag, d with
    | true, (i, dd) :: _ =>
        (Raises (TypeError "unsupported operand type(s) for /: 'str' and 'str'"),
         record [EvLog INFO "Generate hard flag for {datatset.dataset_id}" [];
                 EvLog DEBUG "Diff: {}" [ADiff dd]] w)
    | _, _ => (Returns tt, w)
    end.
Proof.
  unfold sync_flags. destruct hard_flag; [|done].
  destruct d as [|[i dd] r]; [done|].
  simpl. run. unfold record. by rewrite <- app_assoc.
Qed.


(** Lines 127-147 call neither [to_xml] nor [write_text], on any path; and
    when they return, the live object is there. *)
Lemma sync_compare_frame (ctx : CtxObj) (repo branch : option string)
    (p hfd : string) (w : World) :
  to_xml_calls (trace (sync_compare ctx repo branch p hfd w).2)
    = to_xml_calls (trace w) ∧
  written_paths (trace (sync_compare ctx repo branch p hfd w).2)
    = written_paths (trace w) ∧
  ∀ hfd1 self d,
    (sync_compare ctx repo branch p hfd w).1 = Returns (hfd1, self, d) →
    is_Some (heap (sync_compare ctx repo branch p hfd w).2 !! self).
Proof.
  destruct (open_repo_frame repo p w) as (_ & _ & evs & Htr & Hx & Hw).
  assert (HfinX : ∀ tail, to_xml_calls tail = [] →
    to_xml_calls (trace w ++ evs ++ tail) = to_xml_calls (trace w)).
  { intros tail Ht. rewrite !to_xml_calls_app, Hx, Ht. by rewrite !app_nil_r. }
  assert (HfinW : ∀ tail, written_paths tail = [] →
    written_paths (trace w ++ evs ++ tail) = written_paths (trace w)).
  { intros tail Ht. rewrite !written_paths_app, Hw, Ht. by rewrite !app_nil_r. }
  unfold sync_compare, copy, reload, diff_with. run.
  destruct (str_format hfd ctx) as [e|hfd1]; run; [by split_and!|].
  destruct (open_repo repo p w) as [[[]|e] w1]; cbn [snd] in Htr; run.
  2:{ rewrite Htr. split_and!; [|  |done].
      - rewrite <- (app_nil_r evs). by apply HfinX.
      - rewrite <- (app_nil_r evs). by apply HfinW. }
  destruct (git_checkout p branch (fs w1)) as [e|f2]; run.
  { rewrite Htr, <- !app_assoc. split_and!; [by apply HfinX|by apply HfinW|done]. }
  destruct (erddap ctx) as [self|]; run.
  2:{ rewrite Htr, <- !app_assoc. split_and!; [by apply HfinX|by apply HfinW|done]. }
  destruct (heap w1 !! self) as [R0|] eqn:HR0; run.
  2:{ rewrite Htr, <- !app_assoc. split_and!; [by apply HfinX|by apply HfinW|done]. }
  assert (Hlt : self < length (heap w1)) by by eapply lookup_lt_Some.
  destruct (git_pull p f2) as [e|f3]; run.
  { rewrite Htr, <- !app_assoc. split_and!; [by apply HfinX|by apply HfinW|done]. }
  rewrite (lookup_app_l_Some _ _ _ _ HR0). run.
  destruct (load_from f3 (provenance R0)) as [e|[R1 warns]]; run.
  { rewrite Htr, <- !app_assoc. split_and!; [by apply HfinX|by apply HfinW|done]. }
  rewrite list_lookup_insert_eq by (rewrite length_app; simpl; lia).
  run.
  rewrite list_lookup_insert_ne by lia.
  rewrite lookup_app_r by lia. rewrite Nat.sub_diag. simpl.
  rewrite Htr, <- !app_assoc. split_and!.
  - apply HfinX. by rewrite !to_xml_calls_app, to_xml_calls_warnings.
  - apply HfinW. by rewrite !written_paths_app, written_paths_warnings.
  - intros ? ? ? [= _ <- _].
    rewrite list_lookup_insert_eq by (rewrite length_app; simpl; lia).
    by eexists.
Qed.

End sync.
End CliFacts.

(* ===================================================================== *)
(** ** Properties of the commands                                         *)
(* ===================================================================== *)

Module CliClaims.
Import Engine Cli CliViews CliFacts.

Section claims.
Context `{!LoaderEnv, !Host}.



(** C6. In [sync], once the repository is there: the branch is checked
    out, a copy of the live registry is taken, the repository is pulled, the
    live registry is reloaded in place from the pulled files, and the diff
    is the Engine's diff of the copy (before) against the reloaded registry
    (after).  The copy is still the pre-pull registry at the end. *)
Theorem sync_reloads_after_pull (ctx : CtxObj) (repo branch : option string)
    (p hfd hfd' : string) (w w1 : World) (self : loc) (R0 R1 : Registry)
    (f2 f3 : FileSystem) (warns : list Warning) :
  erddap ctx = Some self →
  heap w !! self = Some R0 →
  str_format hfd ctx = inr hfd' →
  open_repo repo p w = (Returns tt, w1) →
  git_checkout p branch (fs w1) = inr f2 →
  git_pull p f2 = inr f3 →
  load_from f3 (provenance R0) = inr (R1, warns) →
  let snapshot := length (heap w) in
  ∃ w', sync_compare ctx repo branch p hfd w
          = (Returns (hfd', self, diff R0 R1), w') ∧
        fs w' = f3 ∧
        heap w' !! self = Some R1 ∧
        heap w' !! snapshot = Some R0 ∧
        trace w' =
          trace w1 ++
            [EvLog INFO "Checkout branch {branch}" [AOpt branch];
             EvCheckout branch;
             EvLog INFO "Compare active dataset vs HEAD" [];
             EvCopy self snapshot;
             EvPull;
             EvLoad self] ++
            (EvWarning <$> warns) ++ [EvDiff self snapshot].
Proof.
  intros Hctx HR0 Hfmt Hopen Hco Hpull Hload snapshot.
  destruct (open_repo_frame repo p w) as (Hheap & _ & _).
  rewrite Hopen in Hheap. cbn [snd] in Hheap.
  assert (Hlt : self < length (heap w)) by by eapply lookup_lt_Some.
  eexists. split.
  { apply (sync_compare_run ctx repo branch p hfd hfd' w w1 self R0 R1 f2 f3 warns);
      try done. by rewrite Hheap. }
  cbn [fs environ heap trace files dirs]. rewrite Hheap. fold snapshot.
  split_and!; try done.
  - apply list_lookup_insert_eq. rewrite length_app. simpl. lia.
  - rewrite list_lookup_insert_ne by (unfold snapshot; lia).
    rewrite lookup_app_r by (unfold snapshot; lia).
    unfold snapshot. by rewrite Nat.sub_diag.
Qed.


(** [sync] with no [Erddap] object: whatever the collaborators do, the
    command raises, at the latest on [erddap.copy()]. *)
Lemma sync_None (ctx : CtxObj) (repo branch : option string) (p : string)
    (hard_flag : bool) (hfd : string) (w : World) :
  erddap ctx = None →
  ∃ e, (sync ctx repo branch p hard_flag hfd w).1 = Raises e.
Proof.
  intros Hctx. unfold sync, sync_compare. run. rewrite Hctx.
  destruct (str_format hfd ctx) as [e|hfd']; run; [by eexists|].
  destruct (open_repo repo p w) as [[[]|e] w1]; run; [|by eexists].
  destruct (git_checkout p branch (fs w1)) as [e|f2]; run; by eexists.
Qed.

(** C9. Which source [main] constructs the registry from, once the logger
    is set up.  The default of [datasets_d] is the glob [datasets.d/*.xml].
    When [datasets_d] is not empty the one constructor call is on the glob,
    with the [recursive] flag, whether or not the [datasets_xml] file
    exists, and the object [main] stores is the registry the Loader gives
    for the glob (a LoadError of that load ends [main]); when it is empty
    and the file exists, the same holds with the file as the source; when it
    is empty and the file does not exist there is no call and no new object,
    [main] returns a context whose [erddap] is [None], and [save] and
    [sync], which call a method on it, raise. *)
Theorem main_source_selection (xml d : string) (r : bool) (bpd lvl : string)
    (w : World) :
  lvl ∈ loguru_levels →
  let started := main xml d r bpd lvl w in
  let constructed_from (src : Source) :=
    erddap_calls (trace started.2) = erddap_calls (trace w) ++ [src] ∧
    match load_from (fs w) src with
    | inl e => started.1 = Raises (LoadFailed e)
    | inr (R, _) =>
        started.1 = Returns (mkCtxObj (Some (length (heap w))) xml d r bpd) ∧
        heap started.2 = heap w ++ [R]
    end in
  opt_datasets_d default_options = "datasets.d/*.xml" ∧
  (d ≠ "" → constructed_from (FragmentSet d r)) ∧
  (d = "" → path_exists (fs w) xml = true →
     constructed_from (SingleFile xml)) ∧
  (d = "" → path_exists (fs w) xml = false →
     erddap_calls (trace started.2) = erddap_calls (trace w) ∧
     heap started.2 = heap w ∧
     started.1 = Returns (mkCtxObj None xml d r bpd) ∧
     (∀ output w1,
        ∃ e, (save (mkCtxObj None xml d r bpd) output w1).1 = Raises e) ∧
     (∀ repo branch p hard_flag hfd w1,
        ∃ e, (sync (mkCtxObj None xml d r bpd) repo branch p hard_flag hfd w1).1
             = Raises e)).
Proof.
  intros Hlvl started constructed_from. subst constructed_from.
  split_and!; [done|..].
  - intros Hd. subst started.
    rewrite (main_run_with (FragmentSet d r) "Load datasets_d={}" d) by
      (try done; left; split_and!; try done; unfold str_truth;
       by rewrite bool_decide_eq_false_2).
    destruct (load_from _ _) as [e|[R warns]]; unfold record, main_prologue;
      cbn [fst snd heap trace];
      rewrite !erddap_calls_app, ?erddap_calls_warnings; by simpl.
  - intros -> Hx. subst started.
    rewrite (main_run_with (SingleFile xml) "Load datasets_xml={}" xml) by
      (try done; right; by split_and!).
    destruct (load_from _ _) as [e|[R warns]]; unfold record, main_prologue;
      cbn [fst snd heap trace];
      rewrite !erddap_calls_app, ?erddap_calls_warnings; by simpl.
  - intros -> Hx. subst started. rewrite main_run_none by done.
    unfold record. cbn [fst snd heap trace]. split_and!; try done.
    + rewrite erddap_calls_app. simpl. by rewrite app_nil_r.
    + intros output w1.
      destruct (save_None (mkCtxObj None xml "" r bpd) output w1)
        as (e & He & _); [done|]. by exists e.
    + intros. by apply sync_None.
Qed.

(** C8, as amended.  With a log level the logger knows: a LoadError raised
    by the Loader on the source [main] selects is not caught, [invoke] ends
    with that exception, which carries the offending file and the fault, the
    exit status is 1, and nothing ran after the constructor call (no
    subcommand, no file or object changed); when no source is selected,
    [main] logs the error and returns, and the subcommand runs with
    [erddap = None].  With any other level [invoke] ends at line 54 with a
    [ValueError] and status 1, before a source is looked for. *)
Theorem load_error_propagates (o : GroupOptions) (c : Subcommand) (w : World) :
  (opt_log_level o ∈ loguru_levels →
   (∀ src e,
      (str_truth (opt_datasets_d o) = true ∧
         src = FragmentSet (opt_datasets_d o) (opt_recursive o)) ∨
      (str_truth (opt_datasets_d o) = false ∧
         path_exists (fs w) (opt_datasets_xml o) = true ∧
         src = SingleFile (opt_datasets_xml o)) →
      load_from (fs w) src = inl e →
      (∃ message arg,
         invoke o c w =
           (Raises (LoadFailed e),
            record (main_prologue (opt_log_level o) message arg
                      ++ [EvErddap src]) w)) ∧
      exit_status (invoke o c w).1 = 1%Z) ∧
   (str_truth (opt_datasets_d o) = false →
    path_exists (fs w) (opt_datasets_xml o) = false →
      invoke o c w =
        subcommand
          (mkCtxObj None (opt_datasets_xml o) (opt_datasets_d o)
                    (opt_recursive o) (opt_big_parent_directory o)) c
          (record [EvLoggerSetup (opt_log_level o);
                   EvLog DEBUG "Load erddap dataset" [];
                   EvLog ERROR "No datasets.xml found" [];
                   EvLog INFO "Load datasets_xml={datasets_xml}" []] w))) ∧
  (opt_log_level o ∉ loguru_levels →
     invoke o c w =
       (Raises (ValueError
                  ("Level '" +:+ opt_log_level o +:+ "' does not exist")),
        record [EvLoggerSetup (opt_log_level o)] w) ∧
     exit_status (invoke o c w).1 = 1%Z).
Proof.
  split; [intros Hlvl; split|intros Hlvl].
  - intros src e Hsel Hload.
    assert (Hrun : ∃ message arg, invoke o c w =
      (Raises (LoadFailed e),
       record (main_prologue (opt_log_level o) message arg ++ [EvErddap src]) w)).
    { destruct Hsel as [(Hd & ->)|(Hd & Hx & ->)]; do 2 eexists;
        unfold invoke; run.
      - rewrite (main_run_with _ _ _ _ _ _ _ _ _ Hlvl
                   (or_introl (conj Hd (conj eq_refl (conj eq_refl eq_refl))))).
        by rewrite Hload.
      - rewrite (main_run_with _ _ _ _ _ _ _ _ _ Hlvl
                   (or_intror (conj Hd (conj Hx (conj eq_refl (conj eq_refl eq_refl)))))).
        by rewrite Hload. }
    split; [exact Hrun|]. destruct Hrun as (? & ? & ->). done.
  - intros Hd Hx. unfold invoke. run. by rewrite main_run_none.
  - unfold invoke. run. by rewrite main_run_bad_level.
Qed.

End claims.
End CliClaims.

(* ===================================================================== *)
(** ** The properties at work on concrete runs                            *)
(* ===================================================================== *)

Module Runs.
Import Engine Cli Demo CliViews Faults.

Lemma diff_covers_union_witness :
  (∀ i, i ∈ (diff registry_xy registry_yz).*1 ↔ i ∈ ["x"; "y"] ∨ i ∈ ["y"; "z"]) ∧
  (∃ d, find_dataset "x" (datasets registry_xy) = Some d ∧
        Assoc.get "x" (diff registry_xy registry_yz) = Some (fully_removed d) ∧
        changed (fully_removed d) = true) ∧
  (∃ d, find_dataset "z" (datasets registry_yz) = Some d ∧
        Assoc.get "z" (diff registry_xy registry_yz) = Some (fully_added d) ∧
        changed (fully_added d) = true) ∧
  (∃ dd, Assoc.get "y" (diff registry_xy registry_yz) = Some dd ∧
         changed dd = false).
Proof.
  destruct (DiffFacts.diff_covers_union registry_xy registry_yz)
    as (Hdom & _ & Hrem & Hadd & Hsame).
  split_and!.
  - exact Hdom.
  - apply Hrem; compute_done.
  - apply Hadd; compute_done.
  - apply (Hsame "y" (plain "y")); reflexivity.
Defined.




Lemma sync_reloads_after_pull_witness :
  erddap base_ctx = Some 0 ∧
  heap base_world !! 0 = Some base_registry ∧
  str_format demo_flag_dir base_ctx = inr "/erddapData/erddap/hardFlag" ∧
  open_repo demo_repo demo_path base_world = (Returns tt, cloned_world) ∧
  git_checkout demo_path demo_branch (fs cloned_world) = inr (fs cloned_world) ∧
  git_pull demo_path (fs cloned_world) = inr pulled_fs ∧
  load_from pulled_fs (provenance base_registry) = inr (pulled_registry, []) ∧
  ∃ w', sync_compare base_ctx demo_repo demo_branch demo_path demo_flag_dir
          base_world
        = (Returns ("/erddapData/erddap/hardFlag", 0,
                    diff base_registry pulled_registry), w') ∧
        fs w' = pulled_fs ∧
        heap w' !! 0 = Some pulled_registry ∧
        heap w' !! 1 = Some base_registry ∧
        trace w' =
          trace cloned_world ++
            [EvLog INFO "Checkout branch {branch}" [AOpt demo_branch];
             EvCheckout demo_branch;
             EvLog INFO "Compare active dataset vs HEAD" [];
             EvCopy 0 1;
             EvPull;
             EvLoad 0] ++
            (EvWarning <$> []) ++ [EvDiff 0 1].
Proof.
  split_and!; [reflexivity..| vm_compute; reflexivity |].
  apply (CliClaims.sync_reloads_after_pull base_ctx demo_repo demo_branch
           demo_path demo_flag_dir "/erddapData/erddap/hardFlag"
           base_world cloned_world 0 base_registry pulled_registry
           (fs cloned_world) pulled_fs []);
    first [reflexivity | vm_compute; reflexivity].
Defined.



Lemma main_source_selection_witness :
  "INFO" ∈ loguru_levels ∧
  path_exists (fs fresh_world) "/srv/datasets.xml" = true ∧
  load_from (fs fresh_world) (SingleFile "/srv/datasets.xml")
  = inr (mkRegistry [plain "x"; plain "y"] [] (SingleFile "/srv/datasets.xml"),
         []) ∧
  erddap_calls
    (trace (main "/srv/datasets.xml" "datasets.d/*.xml" true "/erddapData"
              "INFO" fresh_world).2)
  = [FragmentSet "datasets.d/*.xml" true] ∧
  (main "/srv/datasets.xml" "datasets.d/*.xml" true "/erddapData" "INFO"
     fresh_world).1 = Returns base_ctx ∧
  heap (main "/srv/datasets.xml" "datasets.d/*.xml" true "/erddapData" "INFO"
          fresh_world).2 = [base_registry] ∧
  heap (main "/srv/datasets.xml" "" true "/erddapData" "INFO" fresh_world).2
  = [mkRegistry [plain "x"; plain "y"] [] (SingleFile "/srv/datasets.xml")] ∧
  (main "/missing/datasets.xml" "" true "/erddapData" "INFO" empty_world).1
  = Returns (mkCtxObj None "/missing/datasets.xml" "" true "/erddapData") ∧
  ∃ e, (save (mkCtxObj None "/missing/datasets.xml" "" true "/erddapData")
          "{datasets_xml}" empty_world).1 = Raises e.
Proof.
  assert (Hlvl : "INFO" ∈ loguru_levels) by compute_done.
  split; [exact Hlvl|]. do 2 (split; [vm_compute; reflexivity|]).
  pose proof (CliClaims.main_source_selection "/srv/datasets.xml"
                "datasets.d/*.xml" true "/erddapData" "INFO" fresh_world Hlvl)
    as Hglob.
  pose proof (CliClaims.main_source_selection "/srv/datasets.xml"
                "" true "/erddapData" "INFO" fresh_world Hlvl) as Hfile.
  pose proof (CliClaims.main_source_selection "/missing/datasets.xml"
                "" true "/erddapData" "INFO" empty_world Hlvl) as Hnone.
  cbv zeta in Hglob, Hfile, Hnone.
  assert (Hd : "datasets.d/*.xml" ≠ "") by discriminate.
  assert (Hx : path_exists (fs fresh_world) "/srv/datasets.xml" = true)
    by (vm_compute; reflexivity).
  assert (Hx' : path_exists (fs empty_world) "/missing/datasets.xml" = false)
    by (vm_compute; reflexivity).
  destruct Hglob as (_ & Hglob & _). specialize (Hglob Hd).
  destruct Hfile as (_ & _ & Hfile & _). specialize (Hfile eq_refl Hx).
  destruct Hnone as (_ & _ & _ & Hnone). specialize (Hnone eq_refl Hx').
  destruct Hnone as (_ & _ & Hret & Hsave & _).
  vm_compute in Hglob. destruct Hglob as (Hcalls & Hctx & Hheap).
  vm_compute in Hfile. destruct Hfile as (_ & _ & Hheap').
  split_and!.
  - vm_compute. exact Hcalls.
  - vm_compute. exact Hctx.
  - vm_compute. exact Hheap.
  - vm_compute. exact Hheap'.
  - exact Hret.
  - apply Hsave.
Defined.

Lemma load_error_propagates_witness :
  opt_log_level default_options ∈ loguru_levels ∧
  load_from (fs malformed_world) (FragmentSet "datasets.d/*.xml" true)
  = inl (mkLoadError "datasets.d/010-base.xml" MalformedSyntax) ∧
  (∃ message arg,
     invoke default_options (Save "{datasets_xml}") malformed_world =
       (Raises (LoadFailed (mkLoadError "datasets.d/010-base.xml" MalformedSyntax)),
        record (main_prologue "INFO" message arg
                  ++ [EvErddap (FragmentSet "datasets.d/*.xml" true)])
               malformed_world)) ∧
  exit_status (invoke default_options (Save "{datasets_xml}") malformed_world).1
  = 1%Z ∧
  (opt_log_level verbose_options ∉ loguru_levels) ∧
  invoke verbose_options (Save "{datasets_xml}") base_world
  = (Raises (ValueError "Level 'VERBOSE' does not exist"),
     record [EvLoggerSetup "VERBOSE"] base_world).
Proof.
  assert (Hlvl : opt_log_level default_options ∈ loguru_levels)
    by compute_done.
  assert (Hbad : opt_log_level verbose_options ∉ loguru_levels)
    by compute_done.
  split; [exact Hlvl|]. split; [vm_compute; reflexivity|].
  destruct (CliClaims.load_error_propagates default_options
              (Save "{datasets_xml}") malformed_world) as [Hknown _].
  destruct (CliClaims.load_error_propagates verbose_options
              (Save "{datasets_xml}") base_world) as [_ Hunknown].
  destruct (Hknown Hlvl) as [Hload _].
  destruct (Hload (FragmentSet "datasets.d/*.xml" true)
              (mkLoadError "datasets.d/010-base.xml" MalformedSyntax))
    as [Hrun Hstatus].
  { left. split; reflexivity. }
  { vm_compute; reflexivity. }
  split_and!; [exact Hrun | exact Hstatus | exact Hbad
              | exact (proj1 (Hunknown Hbad))].
Defined.

(** C8, as stated, fails.  With no glob and no monolithic file, the load has
    found no source, yet [main] returns: [test] runs and the process exits
    with status 0; [save] runs too, and what ends it is an [AttributeError]
    on [None], which names no file.  The one message about the fault is the
    log record "No datasets.xml found". *)
Lemma missing_source_not_fatal :
  str_truth (opt_datasets_d no_source_options) = false ∧
  path_exists (fs empty_world) (opt_datasets_xml no_source_options) = false ∧
  invoke no_source_options (Test None) empty_world =
    (Returns tt,
     record [EvLoggerSetup "INFO";
             EvLog DEBUG "Load erddap dataset" [];
             EvLog ERROR "No datasets.xml found" [];
             EvLog INFO "Load datasets_xml={datasets_xml}" [];
             EvLog INFO "Run pytest.main({args})"
                   [AKeys ["--pyargs"; "erddap_deploy"]];
             EvPytest ["--pyargs"; "erddap_deploy"]] empty_world) ∧
  exit_status (invoke no_source_options (Test None) empty_world).1 = 0%Z ∧
  invoke no_source_options (Save "{datasets_xml}") empty_world =
    (Raises (AttributeError "to_xml"),
     record [EvLoggerSetup "INFO";
             EvLog DEBUG "Load erddap dataset" [];
             EvLog ERROR "No datasets.xml found" [];
             EvLog INFO "Load datasets_xml={datasets_xml}" [];
             EvLog INFO "Convert to xml" [];
             EvLog INFO " Include secrets={}" [AKeys []]] empty_world).
Proof. split_and!; vm_compute; reflexivity. Qed.

(** C5, on a run.  [sync] with the hard flag on, after a pull that changes
    [buoy1] and leaves [buoy2] as it was: the diff records the change, the
    registry is re-serialized, and the flag loop ends on its first entry
    with a [TypeError]; [write_text] is never called and no marker file
    exists afterwards, for the changed dataset or any other. *)
Theorem sync_hard_flag_writes_no_marker :
  changed <$> Assoc.get "buoy1" (diff base_registry pulled_registry) = Some true ∧
  changed <$> Assoc.get "buoy2" (diff base_registry pulled_registry) = Some false ∧
  (sync base_ctx demo_repo demo_branch demo_path true demo_flag_dir base_world).1
  = Raises (TypeError "unsupported operand type(s) for /: 'str' and 'str'") ∧
  written_paths
    (trace (sync base_ctx demo_repo demo_branch demo_path true demo_flag_dir
              base_world).2) = [] ∧
  files (fs (sync base_ctx demo_repo demo_branch demo_path true demo_flag_dir
               base_world).2) !! "/erddapData/erddap/hardFlag/buoy1" = None.
Proof. split_and!; vm_compute; reflexivity. Qed.

(** The flag loop makes no difference between entries: here what it takes
    up first, and stops on, is the entry of an unchanged dataset. *)
Example flag_loop_takes_unchanged_entries :
  sync_flags true "/erddapData/erddap/hardFlag"
    [("buoy2", compare_datasets buoy2 buoy2);
     ("buoy1", compare_datasets (buoy1 "http://a") (buoy1 "http://b"))]
    empty_world
  = (Raises (TypeError "unsupported operand type(s) for /: 'str' and 'str'"),
     record [EvLog INFO "Generate hard flag for {datatset.dataset_id}" [];
             EvLog DEBUG "Diff: {}" [ADiff (mkDatasetDiff InBoth [] [] [] false)]]
            empty_world).
Proof. vm_compute; reflexivity. Qed.

(** Scenario 1 of the specification. *)
Example scenario_changed_attribute :
  Assoc.get "cruise_2020"
    (diff (mkRegistry [mkDataset "cruise_2020" "t" [("active", VScalar "true")]]
                      [] (SingleFile "a"))
          (mkRegistry [mkDataset "cruise_2020" "t" [("active", VScalar "false")]]
                      [] (SingleFile "b")))
  = Some (mkDatasetDiff InBoth [] []
            [("active", (VScalar "true", VScalar "false"))] true).
Proof. vm_compute; reflexivity. Qed.

(** Scenario 4 of the specification: the secret is in the output, the live
    registry keeps its placeholder. *)
Example scenario_secret :
  let w' := (save base_ctx "{datasets_xml}" base_world).2 in
  (Assoc.get "password" <$>
     (attributes <$>
        find_dataset "buoy1" (merge_secrets base_registry
                                (environ_secrets (environ base_world))).1.(datasets)))
  = Some (Some (VScalar "p@ss")) ∧
  heap w' = [base_registry].
Proof. vm_compute. split; reflexivity. Qed.

End Runs.


(* ===================================================================== *)
(** ** More on the commands: frames, failures, end states                 *)
(* ===================================================================== *)

Module ExtraFacts.
Import Engine Cli CliViews CliFacts.

Lemma merge_secrets_empty_warnings (R : Registry) : (merge_secrets R ∅).2 = [].
Proof. unfold merge_secrets. simpl. by rewrite dom_empty_L, elements_empty. Qed.

Section facts.
Context `{!LoaderEnv, !Host}.

Lemma test_run (ctx : CtxObj) (test_filter : option string) (w : World) :
  let called :=
    record [EvLog INFO "Run pytest.main({args})"
                  [AKeys (pytest_args test_filter)];
            EvPytest (pytest_args test_filter)] w in
  test ctx test_filter w =
    match pytest_main (pytest_args test_filter) called with
    | inl e => (Raises e, called)
    | inr (code, wp) =>
        (if bool_decide (0 ≤ code ≤ 5)%Z then
           if bool_decide (code = 0%Z) then Returns tt
           else Raises (SystemExit code)
         else Raises (AttributeError "value"),
         mkWorld (fs wp) (environ wp) (heap wp) (trace called))
    end.
Proof.
  intros called. subst called.
  unfold test, pytest_args, exit_code_value, set_state, record. run.
  rewrite <- app_assoc. simpl.
  destruct (pytest_main _ _) as [e|[code wp]]; run; [done|].
  case_bool_decide; run; [|done]. by case_bool_decide.
Qed.

(** A bad output template ends [save] before the registry is touched. *)
Lemma save_format_error (ctx : CtxObj) (output : string) (w : World)
    (e : PyExn) :
  str_format output ctx = inl e →
  save ctx output w =
    (Raises e,
     record [EvLog INFO "Convert to xml" [];
             EvLog INFO " Include secrets={}"
                   [AKeys (elements (dom (environ_secrets (environ w))))]] w).
Proof.
  intros Hfmt. unfold save. run. rewrite Hfmt. run.
  unfold record. by rewrite <- app_assoc.
Qed.

(** The rest of [sync] once lines 127-147 have returned. *)
Lemma sync_after_compare (ctx : CtxObj) (repo branch : option string)
    (p : string) (hard_flag : bool) (hfd hfd' : string) (w wc : World)
    (self : loc) (d : RegistryDiff) (R : Registry) :
  sync_compare ctx repo branch p hfd w = (Returns (hfd', self, d), wc) →
  heap wc !! self = Some R →
  sync ctx repo branch p hard_flag hfd w
  = sync_ending hard_flag d (after_update self p d R wc).
Proof.
  intros Hc HR. unfold sync. run. rewrite Hc.
  unfold after_update, sync_ending.
  destruct (any_values d) eqn:Hany.
  - rewrite (sync_update_run self p d wc R Hany HR).
    rewrite merge_secrets_empty_warnings, sync_flags_run. simpl.
    destruct hard_flag, d as [|[i dd] r]; run; unfold record;
      cbn [fs environ heap trace files dirs]; reflexivity.
  - rewrite sync_update_skip by done. rewrite sync_flags_run.
    destruct hard_flag, d as [|[i dd] r]; run; unfold record;
      cbn [fs environ heap trace files dirs]; reflexivity.
Qed.

Lemma sync_compare_raises (ctx : CtxObj) (repo branch : option string)
    (p : string) (hard_flag : bool) (hfd : string) (w wc : World) (e : PyExn) :
  sync_compare ctx repo branch p hfd w = (Raises e, wc) →
  sync ctx repo branch p hard_flag hfd w = (Raises e, wc).
Proof. intros Hc. unfold sync. run. by rewrite Hc. Qed.

(** Lines 137-138 fail: nothing after them runs. *)
Lemma sync_compare_checkout_fails (ctx : CtxObj) (repo branch : option string)
    (p hfd hfd' : string) (w w1 : World) (e : PyExn) :
  str_format hfd ctx = inr hfd' →
  open_repo repo p w = (Returns tt, w1) →
  git_checkout p branch (fs w1) = inl e →
  sync_compare ctx repo branch p hfd w =
    (Raises e,
     record [EvLog INFO "Checkout branch {branch}" [AOpt branch];
             EvCheckout branch] w1).
Proof.
  intros Hfmt Hopen Hco. unfold sync_compare. run.
  rewrite Hfmt. run. rewrite Hopen. run. rewrite Hco. run.
  unfold record. by rewrite <- app_assoc.
Qed.

(** Line 144 fails: the copy has been taken, the live object is as it
    was. *)
Lemma sync_compare_pull_fails (ctx : CtxObj) (repo branch : option string)
    (p hfd hfd' : string) (w w1 : World) (self : loc) (R0 : Registry)
    (f2 : FileSystem) (e : PyExn) :
  str_format hfd ctx = inr hfd' →
  open_repo repo p w = (Returns tt, w1) →
  git_checkout p branch (fs w1) = inr f2 →
  erddap ctx = Some self →
  heap w1 !! self = Some R0 →
  git_pull p f2 = inl e →
  sync_compare ctx repo branch p hfd w =
    (Raises e,
     mkWorld f2 (environ w1) (heap w1 ++ [R0])
       (trace w1 ++
          [EvLog INFO "Checkout branch {branch}" [AOpt branch];
           EvCheckout branch;
           EvLog INFO "Compare active dataset vs HEAD" [];
           EvCopy self (length (heap w1));
           EvPull])).
Proof.
  intros Hfmt Hopen Hco Hctx HR0 Hpull. unfold sync_compare. run.
  rewrite Hfmt. run. rewrite Hopen. run. rewrite Hco, Hctx. run.
  unfold copy. run. rewrite HR0. run. rewrite Hpull. run.
  by rewrite <- !app_assoc.
Qed.

(** Line 145 fails: the files are the pulled ones, the live object is as
    it was. *)
Lemma sync_compare_reload_fails (ctx : CtxObj) (repo branch : option string)
    (p hfd hfd' : string) (w w1 : World) (self : loc) (R0 : Registry)
    (f2 f3 : FileSystem) (e : LoadError) :
  str_format hfd ctx = inr hfd' →
  open_repo repo p w = (Returns tt, w1) →
  git_checkout p branch (fs w1) = inr f2 →
  erddap ctx = Some self →
  heap w1 !! self = Some R0 →
  git_pull p f2 = inr f3 →
  load_from f3 (provenance R0) = inl e →
  sync_compare ctx repo branch p hfd w =
    (Raises (LoadFailed e),
     mkWorld f3 (environ w1) (heap w1 ++ [R0])
       (trace w1 ++
          [EvLog INFO "Checkout branch {branch}" [AOpt branch];
           EvCheckout branch;
           EvLog INFO "Compare active dataset vs HEAD" [];
           EvCopy self (length (heap w1));
           EvPull;
           EvLoad self])).
Proof.
  intros Hfmt Hopen Hco Hctx HR0 Hpull Hload. unfold sync_compare. run.
  rewrite Hfmt. run. rewrite Hopen. run. rewrite Hco, Hctx. run.
  unfold copy. run. rewrite HR0. run. rewrite Hpull. run.
  unfold reload. run. rewrite (lookup_app_l_Some _ _ _ _ HR0). run.
  rewrite Hload. run. by rewrite <- !app_assoc.
Qed.

End facts.

(** Between two registries with the same datasets, no entry of the diff
    records a change. *)
Lemma diff_same_datasets (A B : Registry) (i : string) (dd : DatasetDiff) :
  datasets A = datasets B →
  (i, dd) ∈ diff A B →
  changed dd = false.
Proof.
  intros Heq Hin. unfold diff in Hin.
  apply list_elem_of_omap in Hin as (j & Hj & Hentry).
  rewrite elem_of_remove_dups in Hj.
  assert (HjA : j ∈ ids A).
  { apply elem_of_app in Hj as [?|Hj]; [done|]. unfold ids in *.
    by rewrite Heq. }
  apply DiffFacts.find_dataset_is_Some in HjA as [d0 Hd0].
  unfold diff_entry in Hentry. rewrite <- Heq, Hd0 in Hentry.
  injection Hentry as <- <-. by rewrite DiffFacts.compare_datasets_same.
Qed.

Lemma any_values_same_datasets `{!Host} (A B : Registry) :
  (∀ dd, truthy dd = true → changed dd = true) →
  datasets A = datasets B →
  any_values (diff A B) = false.
Proof.
  intros Htruthy Heq. unfold any_values.
  apply not_true_is_false. intros Hex.
  apply existsb_exists in Hex as (dd & Hin & Ht).
  apply list_elem_of_In, list_elem_of_fmap in Hin as ([i dd'] & -> & Hin).
  apply Htruthy in Ht. simpl in Ht.
  by rewrite (diff_same_datasets A B i dd' Heq Hin) in Ht.
Qed.

End ExtraFacts.

Module Extras.
Import Engine Cli CliViews CliFacts ExtraFacts.

Section extras.
Context `{!LoaderEnv, !Host}.

(** X1. How [test] ends.  What [pytest.main] raises is not caught.  When
    it returns a member of [ExitCode], the exit status of the command is
    that code: the command returns on 0 and raises [SystemExit] on 1 to 5.
    When it returns another integer, [.value] raises [AttributeError].  The
    files, variables and objects after the command are those [pytest.main]
    left.  The command reads no field of the context, and an empty filter
    is the same as none. *)
Theorem test_exit_status (ctx : CtxObj) (test_filter : option string)
    (w : World) :
  let called :=
    record [EvLog INFO "Run pytest.main({args})"
                  [AKeys (pytest_args test_filter)];
            EvPytest (pytest_args test_filter)] w in
  let ended := test ctx test_filter w in
  match pytest_main (pytest_args test_filter) called with
  | inl e => ended = (Raises e, called)
  | inr (code, wp) =>
      fs ended.2 = fs wp ∧ environ ended.2 = environ wp ∧
      heap ended.2 = heap wp ∧
      ((0 ≤ code ≤ 5)%Z →
         exit_status ended.1 = code ∧
         (ended.1 = Returns tt ↔ code = 0%Z)) ∧
      (¬ (0 ≤ code ≤ 5)%Z →
         ended.1 = Raises (AttributeError "value") ∧
         exit_status ended.1 = 1%Z)
  end ∧
  (∀ ctx', test ctx' test_filter w = ended) ∧
  test ctx (Some "") w = test ctx None w.
Proof.
  intros called ended. subst called ended. split_and!.
  - rewrite test_run. cbv zeta.
    destruct (pytest_main _ _) as [e|[code wp]]; [done|].
    cbn [fst snd fs environ heap]. split_and!; try done.
    + intros Hcode. rewrite bool_decide_eq_true_2 by done.
      case_bool_decide as Hz; simpl.
      * by rewrite Hz.
      * split; [apply Z.mod_small; lia|]. by split.
    + intros Hcode. by rewrite bool_decide_eq_false_2.
  - intros ctx'. by rewrite !test_run.
  - by rewrite !test_run.
Qed.

(** X3. [sync] never calls [write_text]: on every path, with the hard flag
    on or off, no marker file is written. *)
Theorem sync_never_writes_markers (ctx : CtxObj)
    (repo branch : option string) (p : string) (hard_flag : bool)
    (hfd : string) (w : World) :
  written_paths (trace (sync ctx repo branch p hard_flag hfd w).2)
  = written_paths (trace w).
Proof.
  destruct (sync_compare_frame ctx repo branch p hfd w) as (_ & Hw & Hlive).
  destruct (sync_compare ctx repo branch p hfd w)
    as [[[[hfd' self] d]|e] wc] eqn:Hc; cbn [fst snd] in *.
  - destruct (Hlive hfd' self d eq_refl) as [R HR].
    rewrite (sync_after_compare ctx repo branch p hard_flag hfd hfd' w wc
               self d R Hc HR).
    unfold sync_ending, after_update, record.
    destruct hard_flag, d as [|[i dd] r], (any_values _);
      cbn [snd trace]; rewrite !written_paths_app, Hw; simpl;
      by rewrite ?app_nil_r.
  - by rewrite (sync_compare_raises ctx repo branch p hard_flag hfd w wc e Hc).
Qed.

(** X4. How [sync] ends when nothing is to be serialized.  When lines
    127-147 raise, with that exception.  When they return a diff with no
    true entry: with a [TypeError] if the hard flag is on and the diff has
    an entry, normally otherwise. *)
Theorem sync_outcome (ctx : CtxObj) (repo branch : option string)
    (p : string) (hard_flag : bool) (hfd : string) (w : World) :
  match (sync_compare ctx repo branch p hfd w).1 with
  | Returns (_, _, d) =>
      (∀ i dd, (i, dd) ∈ d → truthy dd = false) →
      (sync ctx repo branch p hard_flag hfd w).1 =
        if hard_flag && negb (bool_decide (d = []))
        then Raises (TypeError
                       "unsupported operand type(s) for /: 'str' and 'str'")
        else Returns tt
  | Raises e => (sync ctx repo branch p hard_flag hfd w).1 = Raises e
  end.
Proof.
  destruct (sync_compare_frame ctx repo branch p hfd w) as (_ & _ & Hlive).
  destruct (sync_compare ctx repo branch p hfd w)
    as [[[[hfd' self] d]|e] wc] eqn:Hc; cbn [fst snd] in *.
  - intros Hnone%any_values_false.
    destruct (Hlive hfd' self d eq_refl) as [R HR].
    rewrite (sync_after_compare ctx repo branch p hard_flag hfd hfd' w wc
               self d R Hc HR).
    unfold sync_ending. by destruct hard_flag, d as [|[i dd] r].
  - by rewrite (sync_compare_raises ctx repo branch p hard_flag hfd w wc e Hc).
Qed.

(** X10. [save] changes no object, variable or directory, and no file
    other than the one at the formatted output path, on every path
    through it. *)
Theorem save_changes_one_file (ctx : CtxObj) (output : string) (w : World) :
  heap (save ctx output w).2 = heap w ∧
  environ (save ctx output w).2 = environ w ∧
  dirs (fs (save ctx output w).2) = dirs (fs w) ∧
  ∀ p, str_format output ctx ≠ inr p →
       files (fs (save ctx output w).2) !! p = files (fs w) !! p.
Proof.
  unfold save. run.
  destruct (str_format output ctx) as [e|out]; run; [by split_and!|].
  destruct (erddap ctx) as [self|]; run; [|by split_and!].
  destruct (heap w !! self) as [R|] eqn:HR.
  - erewrite to_xml_run by (cbn [heap]; exact HR).
    cbn [fs environ heap trace files dirs snd]. split_and!; try done.
    intros p Hp. apply lookup_insert_ne. congruence.
  - unfold to_xml. run. rewrite HR. by split_and!.
Qed.

(** X11. When the output template does not format, [save] ends with the
    error of [str.format], also when there is no registry to save: the
    template is formatted before the registry is used.  No [to_xml] call is
    made and the file system is untouched. *)
Theorem save_bad_template (ctx : CtxObj) (output : string) (w : World)
    (e : PyExn) :
  str_format output ctx = inl e →
  (save ctx output w).1 = Raises e ∧
  fs (save ctx output w).2 = fs w ∧
  to_xml_calls (trace (save ctx output w).2) = to_xml_calls (trace w).
Proof.
  intros Hfmt. rewrite (save_format_error ctx output w e Hfmt).
  unfold record. cbn [fst snd fs trace]. split_and!; try done.
  rewrite to_xml_calls_app. simpl. by rewrite app_nil_r.
Qed.

(** X6. When the reload after the pull fails, [sync] ends with the
    LoadError; the files are the pulled ones, the live object still holds
    the registry it held before, and nothing has been serialized. *)
Theorem sync_reload_failure (ctx : CtxObj) (repo branch : option string)
    (p : string) (hard_flag : bool) (hfd hfd' : string) (w w1 : World)
    (self : loc) (R0 : Registry) (f2 f3 : FileSystem) (e : LoadError) :
  erddap ctx = Some self →
  heap w !! self = Some R0 →
  str_format hfd ctx = inr hfd' →
  open_repo repo p w = (Returns tt, w1) →
  git_checkout p branch (fs w1) = inr f2 →
  git_pull p f2 = inr f3 →
  load_from f3 (provenance R0) = inl e →
  let ended := sync ctx repo branch p hard_flag hfd w in
  ended.1 = Raises (LoadFailed e) ∧
  fs ended.2 = f3 ∧
  heap ended.2 !! self = Some R0 ∧
  to_xml_calls (trace ended.2) = to_xml_calls (trace w).
Proof.
  intros Hctx HR0 Hfmt Hopen Hco Hpull Hload ended. subst ended.
  destruct (open_repo_frame repo p w) as (Hheap & _ & _).
  rewrite Hopen in Hheap. cbn [snd] in Hheap.
  destruct (sync_compare_frame ctx repo branch p hfd w) as (Hx & _ & _).
  pose proof (sync_compare_reload_fails ctx repo branch p hfd hfd' w w1 self
                R0 f2 f3 e Hfmt Hopen Hco Hctx
                (eq_ind_r (λ h, h !! self = Some R0) HR0 Hheap) Hpull Hload)
    as Hc.
  rewrite Hc in Hx. cbn [snd] in Hx.
  rewrite (sync_compare_raises ctx repo branch p hard_flag hfd w _ _ Hc).
  cbn [fst snd fs heap]. split_and!; try done.
  apply lookup_app_l_Some. by rewrite Hheap.
Qed.

(** X7. When git fails in [sync].  If the checkout fails, the command ends
    with git's error and no object has been copied or changed.  If the pull
    fails, it ends with git's error after the copy: the live object still
    holds its registry, and the heap has one more object, the copy. *)
Theorem sync_git_failure (ctx : CtxObj) (repo branch : option string)
    (p : string) (hard_flag : bool) (hfd hfd' : string) (w w1 : World)
    (self : loc) (R0 : Registry) (e : PyExn) :
  erddap ctx = Some self →
  heap w !! self = Some R0 →
  str_format hfd ctx = inr hfd' →
  open_repo repo p w = (Returns tt, w1) →
  let ended := sync ctx repo branch p hard_flag hfd w in
  (git_checkout p branch (fs w1) = inl e →
     ended.1 = Raises e ∧ heap ended.2 = heap w ∧ fs ended.2 = fs w1) ∧
  (∀ f2, git_checkout p branch (fs w1) = inr f2 → git_pull p f2 = inl e →
     ended.1 = Raises e ∧ heap ended.2 = heap w ++ [R0] ∧ fs ended.2 = f2).
Proof.
  intros Hctx HR0 Hfmt Hopen ended. subst ended.
  destruct (open_repo_frame repo p w) as (Hheap & _ & _).
  rewrite Hopen in Hheap. cbn [snd] in Hheap.
  split.
  - intros Hco.
    rewrite (sync_compare_raises ctx repo branch p hard_flag hfd w _ _
               (sync_compare_checkout_fails ctx repo branch p hfd hfd' w w1 e
                  Hfmt Hopen Hco)).
    unfold record. cbn [fst snd fs heap]. by split_and!.
  - intros f2 Hco Hpull.
    rewrite (sync_compare_raises ctx repo branch p hard_flag hfd w _ _
               (sync_compare_pull_fails ctx repo branch p hfd hfd' w w1 self
                  R0 f2 e Hfmt Hopen Hco Hctx
                  (eq_ind_r (λ h, h !! self = Some R0) HR0 Hheap) Hpull)).
    cbn [fst snd fs heap]. rewrite Hheap. by split_and!.
Qed.

(** X12. A pull that leaves the datasets as they were.  When only changed
    datasets count as true and the reloaded registry has the datasets of
    the copy, [sync] with the hard flag off returns without a [to_xml]
    call, and the file system is the pulled one. *)
Theorem sync_no_change_no_rewrite (ctx : CtxObj)
    (repo branch : option string) (p hfd hfd' : string) (w w1 : World)
    (self : loc) (R0 R1 : Registry) (f2 f3 : FileSystem)
    (warns : list Warning) :
  (∀ dd, truthy dd = true → changed dd = true) →
  erddap ctx = Some self →
  heap w !! self = Some R0 →
  str_format hfd ctx = inr hfd' →
  open_repo repo p w = (Returns tt, w1) →
  git_checkout p branch (fs w1) = inr f2 →
  git_pull p f2 = inr f3 →
  load_from f3 (provenance R0) = inr (R1, warns) →
  datasets R1 = datasets R0 →
  let ended := sync ctx repo branch p false hfd w in
  ended.1 = Returns tt ∧
  fs ended.2 = f3 ∧
  to_xml_calls (trace ended.2) = to_xml_calls (trace w).
Proof.
  intros Htruthy Hctx HR0 Hfmt Hopen Hco Hpull Hload Hsame ended.
  subst ended.
  destruct (open_repo_frame repo p w) as (Hheap & _ & _).
  rewrite Hopen in Hheap. cbn [snd] in Hheap.
  assert (Hlt : self < length (heap w1)).
  { rewrite Hheap. by eapply lookup_lt_Some. }
  destruct (sync_compare_frame ctx repo branch p hfd w) as (Hx & _ & _).
  pose proof (sync_compare_run ctx repo branch p hfd hfd' w w1 self R0 R1
                f2 f3 warns Hfmt Hopen Hco Hctx
                (eq_ind_r (λ h, h !! self = Some R0) HR0 Hheap) Hpull Hload)
    as Hc.
  rewrite Hc in Hx. cbn [snd trace] in Hx.
  rewrite (sync_after_compare ctx repo branch p false hfd hfd' w _ self _ R1 Hc).
  2:{ cbn [heap]. apply list_lookup_insert_eq. rewrite length_app. simpl. lia. }
  unfold sync_ending, after_update, record.
  rewrite (any_values_same_datasets R0 R1 Htruthy (eq_sym Hsame)).
  cbn [fst snd fs trace]. split_and!; try done.
  rewrite to_xml_calls_app, Hx. simpl. by rewrite app_nil_r.
Qed.

End extras.
End Extras.

Module ExtraRuns.
Import Engine Cli CliViews Demo Faults.

Lemma test_exit_status_witness :
  @pytest_main failing_tests_host ["--pyargs"; "erddap_deploy"]
    (record [EvLog INFO "Run pytest.main({args})"
                   [AKeys ["--pyargs"; "erddap_deploy"]];
             EvPytest ["--pyargs"; "erddap_deploy"]] base_world)
  = inr (1%Z,
         mkWorld
           (mkFileSystem (<[".pytest_cache/lastfailed" := RawText "{}"]>
                            (files (fs base_world))) ∅)
           (environ base_world) (heap base_world)
           [EvLog INFO "Run pytest.main({args})"
                  [AKeys ["--pyargs"; "erddap_deploy"]];
            EvPytest ["--pyargs"; "erddap_deploy"]]) ∧
  (0 ≤ 1 ≤ 5)%Z ∧
  exit_status (@test failing_tests_host base_ctx None base_world).1 = 1%Z ∧
  files (fs (@test failing_tests_host base_ctx None base_world).2)
    !! ".pytest_cache/lastfailed" = Some (RawText "{}").
Proof.
  split; [vm_compute; reflexivity|]. split; [lia|].
  pose proof (@Extras.test_exit_status failing_tests_host base_ctx None
                base_world) as Hrun.
  cbv zeta in Hrun. destruct Hrun as (Hrun & _).
  change (@pytest_main failing_tests_host (pytest_args None)
            (record [EvLog INFO "Run pytest.main({args})"
                           [AKeys (pytest_args None)];
                     EvPytest (pytest_args None)] base_world))
    with (inr (1%Z,
               mkWorld
                 (mkFileSystem (<[".pytest_cache/lastfailed" := RawText "{}"]>
                                  (files (fs base_world))) (dirs (fs base_world)))
                 (environ base_world) (heap base_world)
                 (trace (record [EvLog INFO "Run pytest.main({args})"
                                        [AKeys (pytest_args None)];
                                 EvPytest (pytest_args None)] base_world)))
          : PyExn + Z * World) in Hrun.
  destruct Hrun as (Hfs & _ & _ & Hcode & _).
  destruct Hcode as [Hstatus _]; [lia|].
  split; [exact Hstatus|]. rewrite Hfs. reflexivity.
Defined.

Lemma sync_outcome_witness :
  (sync_compare base_ctx demo_repo demo_branch demo_path demo_flag_dir
     settled_world).1
  = Returns ("/erddapData/erddap/hardFlag", 0,
             diff pulled_registry pulled_registry) ∧
  (∀ i dd, (i, dd) ∈ diff pulled_registry pulled_registry →
           truthy dd = false) ∧
  (sync base_ctx demo_repo demo_branch demo_path true demo_flag_dir
     settled_world).1
  = Raises (TypeError "unsupported operand type(s) for /: 'str' and 'str'").
Proof.
  assert (Hcmp : (sync_compare base_ctx demo_repo demo_branch demo_path
                    demo_flag_dir settled_world).1
                 = Returns ("/erddapData/erddap/hardFlag", 0,
                            diff pulled_registry pulled_registry))
    by (vm_compute; reflexivity).
  assert (Hnone : ∀ i dd, (i, dd) ∈ diff pulled_registry pulled_registry →
                          truthy dd = false).
  { intros i dd Hin. apply (ExtraFacts.diff_same_datasets _ _ i dd eq_refl Hin). }
  pose proof (Extras.sync_outcome base_ctx demo_repo demo_branch demo_path
                true demo_flag_dir settled_world) as Hrun.
  rewrite Hcmp in Hrun.
  split_and!; [exact Hcmp | exact Hnone | exact (Hrun Hnone)].
Defined.

Lemma sync_reload_failure_witness :
  erddap base_ctx = Some 0 ∧
  heap spoiled_world !! 0 = Some base_registry ∧
  str_format demo_flag_dir base_ctx = inr "/erddapData/erddap/hardFlag" ∧
  open_repo demo_repo demo_path spoiled_world = (Returns tt, spoiled_cloned) ∧
  git_checkout demo_path demo_branch (fs spoiled_cloned)
    = inr (fs spoiled_cloned) ∧
  git_pull demo_path (fs spoiled_cloned) = inr spoiled_pulled_fs ∧
  load_from spoiled_pulled_fs (provenance base_registry)
    = inl (mkLoadError "datasets.d/005-bad.xml" MalformedSyntax) ∧
  (sync base_ctx demo_repo demo_branch demo_path false demo_flag_dir
     spoiled_world).1
    = Raises (LoadFailed (mkLoadError "datasets.d/005-bad.xml" MalformedSyntax)) ∧
  heap (sync base_ctx demo_repo demo_branch demo_path false demo_flag_dir
          spoiled_world).2 !! 0 = Some base_registry.
Proof.
  split_and!; [reflexivity..| vm_compute; reflexivity | |].
  - apply (Extras.sync_reload_failure base_ctx demo_repo demo_branch demo_path
             false demo_flag_dir "/erddapData/erddap/hardFlag" spoiled_world
             spoiled_cloned 0 base_registry (fs spoiled_cloned)
             spoiled_pulled_fs
             (mkLoadError "datasets.d/005-bad.xml" MalformedSyntax));
      first [reflexivity | vm_compute; reflexivity].
  - apply (Extras.sync_reload_failure base_ctx demo_repo demo_branch demo_path
             false demo_flag_dir "/erddapData/erddap/hardFlag" spoiled_world
             spoiled_cloned 0 base_registry (fs spoiled_cloned)
             spoiled_pulled_fs
             (mkLoadError "datasets.d/005-bad.xml" MalformedSyntax));
      first [reflexivity | vm_compute; reflexivity].
Defined.

Lemma sync_git_failure_witness :
  erddap base_ctx = Some 0 ∧
  heap base_world !! 0 = Some base_registry ∧
  @str_format (flaky_host true false) demo_flag_dir base_ctx
    = inr "/erddapData/erddap/hardFlag" ∧
  @open_repo (flaky_host true false) demo_repo demo_path base_world
    = (Returns tt, cloned_world) ∧
  @git_checkout (flaky_host true false) demo_path demo_branch (fs cloned_world)
    = inr (fs cloned_world) ∧
  @git_pull (flaky_host true false) demo_path (fs cloned_world)
    = inl (LibraryError "git" "could not read from remote") ∧
  (@sync demo_loader (flaky_host true false) base_ctx demo_repo demo_branch
     demo_path false demo_flag_dir base_world).1
    = Raises (LibraryError "git" "could not read from remote") ∧
  heap (@sync demo_loader (flaky_host true false) base_ctx demo_repo
          demo_branch demo_path false demo_flag_dir base_world).2
    = heap base_world ++ [base_registry] ∧
  fs (@sync demo_loader (flaky_host true false) base_ctx demo_repo
        demo_branch demo_path false demo_flag_dir base_world).2
    = fs cloned_world.
Proof.
  do 6 (split; [reflexivity|]).
  apply (proj2 (@Extras.sync_git_failure demo_loader (flaky_host true false)
                  base_ctx demo_repo demo_branch demo_path false demo_flag_dir
                  "/erddapData/erddap/hardFlag" base_world cloned_world 0
                  base_registry (LibraryError "git" "could not read from remote")
                  eq_refl eq_refl eq_refl eq_refl)
          (fs cloned_world) eq_refl eq_refl).
Defined.

Lemma save_bad_template_witness :
  @str_format strict_host "{output_dir}/datasets.xml" base_ctx
    = inl (LibraryError "str.format" "KeyError") ∧
  (@save strict_host base_ctx "{output_dir}/datasets.xml"
     base_world).1 = Raises (LibraryError "str.format" "KeyError") ∧
  fs (@save strict_host base_ctx "{output_dir}/datasets.xml"
        base_world).2 = fs base_world ∧
  to_xml_calls
    (trace (@save strict_host base_ctx "{output_dir}/datasets.xml"
              base_world).2) = to_xml_calls (trace base_world).
Proof.
  split; [reflexivity|].
  apply (@Extras.save_bad_template strict_host base_ctx
           "{output_dir}/datasets.xml" base_world
           (LibraryError "str.format" "KeyError")).
  reflexivity.
Defined.

Lemma sync_no_change_no_rewrite_witness :
  (∀ dd, truthy dd = true → changed dd = true) ∧
  erddap base_ctx = Some 0 ∧
  heap settled_world !! 0 = Some pulled_registry ∧
  str_format demo_flag_dir base_ctx = inr "/erddapData/erddap/hardFlag" ∧
  open_repo demo_repo demo_path settled_world = (Returns tt, settled_opened) ∧
  git_checkout demo_path demo_branch (fs settled_opened)
    = inr (fs settled_opened) ∧
  git_pull demo_path (fs settled_opened) = inr (fs settled_opened) ∧
  load_from (fs settled_opened) (provenance pulled_registry)
    = inr (pulled_registry, []) ∧
  (sync base_ctx demo_repo demo_branch demo_path false demo_flag_dir
     settled_world).1 = Returns tt ∧
  fs (sync base_ctx demo_repo demo_branch demo_path false demo_flag_dir
        settled_world).2 = fs settled_opened ∧
  to_xml_calls
    (trace (sync base_ctx demo_repo demo_branch demo_path false demo_flag_dir
              settled_world).2) = to_xml_calls (trace settled_world).
Proof.
  split; [intros dd Hdd; exact Hdd|].
  split_and!; [reflexivity..| vm_compute; reflexivity
              | vm_compute; reflexivity | | |];
    apply (Extras.sync_no_change_no_rewrite base_ctx demo_repo demo_branch
             demo_path demo_flag_dir "/erddapData/erddap/hardFlag"
             settled_world settled_opened 0 pulled_registry pulled_registry
             (fs settled_opened) (fs settled_opened) []);
    first [reflexivity | vm_compute; reflexivity | intros dd Hdd; exact Hdd].
Defined.

End ExtraRuns.
